(** * Govee Life integration: capability cache, control pipeline and entity views

    Shallow embedding of the Home Assistant integration
    [custom_components/goveelife] (files [utils.py], [entities.py],
    [__init__.py], [light.py], [fan.py], [humidifier.py]).

    Python values received from the vendor API are JSON documents: they
    are modelled by [json].  Python exceptions are the [Raise] case of
    [res]; functions that catch every exception ([except Exception])
    turn it into their fallback value, as the source does. *)

From Stdlib Require Import ZArith Floats Uint63 Ascii String.
From stdpp Require Import base gmap strings list.

Open Scope Z_scope.

(* ------------------------------------------------------------------ *)
(** ** JSON values and the Python operations the code applies to them *)

#[local] Set Warnings "-register-all".
Inductive json : Type :=
| JNull
| JBool (b : bool)
| JInt (z : Z)
| JStr (s : string)
| JList (l : list json)
| JObj (d : list (string * json)).

Abbreviation dict := (list (string * json)).

(** Nested induction principle for [json]. *)
Section json_ind_nested.
Variable P : json -> Prop.
Hypothesis HNull : P JNull.
Hypothesis HBool : forall b, P (JBool b).
Hypothesis HInt : forall z, P (JInt z).
Hypothesis HStr : forall s, P (JStr s).
Hypothesis HList : forall l, Forall P l -> P (JList l).
Hypothesis HObj : forall d, Forall (fun kv => P kv.2) d -> P (JObj d).

Fixpoint json_ind' (j : json) : P j :=
  match j with
  | JNull => HNull
  | JBool b => HBool b
  | JInt z => HInt z
  | JStr s => HStr s
  | JList l =>
      HList l ((fix go (l : list json) : Forall P l :=
                  match l with
                  | [] => Forall_nil_2 P
                  | x :: r => Forall_cons_2 P x r (json_ind' x) (go r)
                  end) l)
  | JObj d =>
      HObj d ((fix go (d : dict) : Forall (fun kv => P kv.2) d :=
                 match d with
                 | [] => Forall_nil_2 _
                 | kv :: r => Forall_cons_2 _ kv r (json_ind' kv.2) (go r)
                 end) d)
  end.
End json_ind_nested.

(** [d.get(k)] on a dict: the first binding of [k]. *)
Fixpoint dget (k : string) (d : dict) : option json :=
  match d with
  | [] => None
  | (k', v) :: r => if String.eqb k k' then Some v else dget k r
  end.

(** [d[k] = v]: overwrite in place, or append a new key. *)
Fixpoint dset (k : string) (v : json) (d : dict) : dict :=
  match d with
  | [] => [(k, v)]
  | (k', v') :: r => if String.eqb k k' then (k', v) :: r else (k', v') :: dset k v r
  end.

(** [d.pop(k, None)]: the removed value and the remaining dict. *)
Fixpoint dpop (k : string) (d : dict) : option json * dict :=
  match d with
  | [] => (None, [])
  | (k', v) :: r =>
      if String.eqb k k' then (Some v, r)
      else let '(o, r') := dpop k r in (o, (k', v) :: r')
  end.

(** Numeric view used by Python's [==]: [True == 1], [False == 0]. *)
Definition num_of (j : json) : option Z :=
  match j with
  | JBool b => Some (if b then 1 else 0)
  | JInt z => Some z
  | _ => None
  end.

(** Elementwise comparison of two lists with [eq]. *)
Fixpoint list_eqb (eq : json -> json -> bool) (l1 l2 : list json) : bool :=
  match l1, l2 with
  | [], [] => true
  | x :: r1, y :: r2 => eq x y && list_eqb eq r1 r2
  | _, _ => false
  end.

(** Every key of [d] (its first binding; [seen] holds the keys met
    before) is bound in [d2] to a value equal under [eq]. *)
Fixpoint dict_eqb (eq : json -> json -> bool) (d2 : dict) (seen : list string) (d : dict) : bool :=
  match d with
  | [] => true
  | (k, v) :: r =>
      (if bool_decide (k ∈ seen) then true
       else match dget k d2 with
            | Some v2 => eq v v2
            | None => false
            end) && dict_eqb eq d2 (k :: seen) r
  end.

(** Python [==] on JSON values.  Lists compare elementwise; dicts compare
    as maps: same keys, and equal values under each key. *)
Fixpoint py_eqb (a b : json) : bool :=
  match a, b with
  | JNull, JNull => true
  | JStr s, JStr t => String.eqb s t
  | JList l1, JList l2 => list_eqb py_eqb l1 l2
  | JObj d1, JObj d2 =>
      dict_eqb py_eqb d2 [] d1
      && forallb (fun k => bool_decide (k ∈ map fst d1)) (map fst d2)
  | _, _ =>
      match num_of a, num_of b with
      | Some x, Some y => Z.eqb x y
      | _, _ => false
      end
  end.

(** [x is None]: JSON [null] is read as Python's [None]. *)
Definition is_none (j : json) : bool :=
  match j with JNull => true | _ => false end.

(** Python truthiness. *)
Definition truthy (j : json) : bool :=
  match j with
  | JNull => false
  | JBool b => b
  | JInt z => negb (Z.eqb z 0)
  | JStr s => negb (String.eqb s "")
  | JList l => negb (bool_decide (l = []))
  | JObj d => negb (bool_decide (d = []))
  end.

(** Values usable as dict keys (lists and dicts are unhashable). *)
Definition hashable (j : json) : bool :=
  match j with JList _ | JObj _ => false | _ => true end.

(** Python exceptions raised along the modelled paths. *)
Inductive exn : Type :=
| KeyError | TypeError | AttributeError | NameError | IndexError
| UpdateFailed | ConfigEntryAuthFailed | ConfigEntryNotReady | ArithmeticError.

Inductive res (A : Type) : Type :=
| Ok (a : A)
| Raise (e : exn).
Arguments Ok {A} a.
Arguments Raise {A} e.

Definition rbind {A B} (m : res A) (f : A -> res B) : res B :=
  match m with Ok a => f a | Raise e => Raise e end.

Notation "'let*' x ':=' m 'in' k" := (rbind m (fun x => k))
  (at level 200, x name, m at level 100, k at level 200).

(** [x[k]] with a string key. *)
Definition py_getitem (j : json) (k : string) : res json :=
  match j with
  | JObj d => match dget k d with Some v => Ok v | None => Raise KeyError end
  | _ => Raise TypeError
  end.

(** [x.get(k, default)]: only dicts have [.get]. *)
Definition py_get (j : json) (k : string) (def : json) : res json :=
  match j with
  | JObj d => Ok (default def (dget k d))
  | _ => Raise AttributeError
  end.

(** [for x in j]: lists yield their items, dicts their keys, strings
    their characters; other values are not iterable. *)
Definition py_iter (j : json) : res (list json) :=
  match j with
  | JList l => Ok l
  | JObj d => Ok (map (fun kv => JStr kv.1) d)
  | JStr s => Ok (map (fun c => JStr (String c EmptyString)) (list_ascii_of_string s))
  | _ => Raise TypeError
  end.

(** Catch-all handler: [try: ... except Exception: return fallback]. *)
Definition catch {A} (fallback : A) (r : res A) : A :=
  match r with Ok a => a | Raise _ => fallback end.

(* ------------------------------------------------------------------ *)
(** ** Integration data ([hass.data[DOMAIN][entry_id]]) *)

(** The daily request counter [{CONF_COUNT: n, ATTR_DATE: d}], the date
    as a day number. *)
Record counter := { cnt_count : Z; cnt_date : Z }.

(** The per-entry data the modelled code reads and writes: the State
    Cache [entry_data[CONF_STATE]] (device id to the stored state payload)
    and the request counter [entry_data[CONF_API_COUNT]]. *)
Record entry_data := {
  ed_state : gmap string json;
  ed_api_count : option counter
}.

(** [entry_data.get(CONF_STATE, {}).get(device_id, {})] *)
Definition device_payload (ed : entry_data) (device_id : string) : json :=
  default (JObj []) (ed_state ed !! device_id).

(** The loop of [GoveeAPI_GetCachedStateValue]. *)
Fixpoint scan_cached (caps : list json) (value_type value_instance : string) : res json :=
  match caps with
  | [] => Ok JNull
  | cap :: rest =>
      let* ty := py_getitem cap "type" in
      let* hit := (if py_eqb ty (JStr value_type)
                   then let* inst := py_getitem cap "instance" in
                        Ok (py_eqb inst (JStr value_instance))
                   else Ok false) in
      if hit then
        let* cap_state := py_get cap "state" JNull in
        if is_none cap_state then scan_cached rest value_type value_instance
        else
          let* legacy := py_get cap_state value_instance JNull in
          py_get cap_state "value" legacy
      else scan_cached rest value_type value_instance
  end.

(** [utils.GoveeAPI_GetCachedStateValue]; [None] is [JNull]. *)
Definition GoveeAPI_GetCachedStateValue (ed : entry_data)
    (device_id value_type value_instance : string) : json :=
  catch JNull (
    let* capabilities := py_get (device_payload ed device_id) "capabilities" (JList []) in
    let* caps := py_iter capabilities in
    scan_cached caps value_type value_instance).

(* ------------------------------------------------------------------ *)
(** ** API client, device state and control ([utils.py]) *)

(** Requests put on the network, and what [requests] hands back: a
    transport exception, or a status code with a body that
    [response.json()] decodes ([None] when it raises). *)
Inductive request : Type :=
| Req_GET (path : string)
| Req_POST (path : string) (body : json).

Inductive http_reply : Type :=
| HTransportError
| HResp (status : Z) (body : option json).

(** A device descriptor of the device listing. *)
Record device_cfg := {
  dc_device : string;
  dc_sku : json
}.

(** What the modelled code changes: the integration data, the requests
    sent so far (oldest first) and the number of [uuid.uuid4()] drawn. *)
Record world := {
  w_entry : entry_data;
  w_sent : list request;
  w_uuid : nat
}.

Definition set_entry (w : world) (ed : entry_data) : world :=
  {| w_entry := ed; w_sent := w_sent w; w_uuid := w_uuid w |}.

Definition log_request (w : world) (r : request) : world :=
  {| w_entry := w_entry w; w_sent := w_sent w ++ [r]; w_uuid := w_uuid w |}.

Definition set_state (w : world) (st : gmap string json) : world :=
  set_entry w {| ed_state := st; ed_api_count := ed_api_count (w_entry w) |}.

(** The global names bound in [utils.py] (its imports and its own
    definitions).  [from datetime import date] is not among the imports. *)
Definition utils_globals : list string :=
  ["annotations"; "Final"; "logging"; "asyncio"; "json"; "uuid"; "requests";
   "HomeAssistant"; "ConfigEntry"; "AddEntitiesCallback";
   "ATTR_DATE"; "CONF_API_KEY"; "CONF_COUNT"; "CONF_PARAMS"; "CONF_STATE";
   "CONF_TIMEOUT"; "DOMAIN"; "CONF_API_COUNT"; "CLOUD_API_URL_OPENAPI";
   "CLOUD_API_HEADER_KEY"; "_LOGGER"; "async_ProgrammingDebug";
   "async_GooveAPI_CountRequests"; "async_GoveeAPI_GETRequest";
   "async_GoveeAPI_POSTRequest"; "async_GoveeAPI_GetDeviceState";
   "async_GoveeAPI_ControlDevice"; "GoveeAPI_GetCachedStateValue"].

(** The global names bound in [entities.py] (its imports and its own
    definitions).  [import asyncio] is not among the imports. *)
Definition entities_globals : list string :=
  ["annotations"; "Final"; "logging"; "timedelta"; "async_timeout";
   "HomeAssistant"; "callback"; "ConfigEntry"; "ConfigEntryAuthFailed";
   "DeviceInfo"; "Entity"; "generate_entity_id";
   "CoordinatorEntity"; "DataUpdateCoordinator"; "UpdateFailed";
   "CONF_FRIENDLY_NAME"; "CONF_PARAMS"; "CONF_SCAN_INTERVAL"; "CONF_STATE";
   "CONF_TIMEOUT"; "STATE_UNKNOWN"; "DEFAULT_NAME"; "DOMAIN"; "DEFAULT_TIMEOUT";
   "async_GoveeAPI_GetDeviceState"; "_LOGGER";
   "GoveeLifePlatformEntity"; "GoveeAPIUpdateCoordinator"].

(** Reading a global name: [NameError] when it is unbound. *)
Definition resolve_global (globals : list string) (name : string) : res unit :=
  if bool_decide (name ∈ globals) then Ok tt else Raise NameError.

Inductive ds_ret : Type :=
| DSBool (b : bool)
| DSInt (z : Z).

Section api.
(** The vendor's server, the [uuid.uuid4()] supply and [date.today()]. *)
Variable http : request -> http_reply.
Variable uuid4 : nat -> string.
Variable today : Z.

Definition fresh_uuid (w : world) : string * world :=
  (uuid4 (w_uuid w), {| w_entry := w_entry w; w_sent := w_sent w; w_uuid := S (w_uuid w) |}).

(** Body of [async_GooveAPI_CountRequests], in a module whose global
    names are [globals]. *)
Definition count_requests_in (globals : list string) (ed : entry_data) : res entry_data :=
  let* _ := resolve_global globals "date" in
  let v := default {| cnt_count := 0; cnt_date := today |} (ed_api_count ed) in
  let v' := if Z.eqb (cnt_date v) today
            then {| cnt_count := cnt_count v + 1; cnt_date := cnt_date v |}
            else {| cnt_count := 1; cnt_date := cnt_date v |} in
  Ok {| ed_state := ed_state ed; ed_api_count := Some v' |}.

(** [utils.async_GooveAPI_CountRequests]: exceptions are logged. *)
Definition async_GooveAPI_CountRequests (ed : entry_data) : entry_data :=
  catch ed (count_requests_in utils_globals ed).

Definition count_in_world (w : world) : world :=
  set_entry w (async_GooveAPI_CountRequests (w_entry w)).

(** Status classification shared by GET and POST: 429, 401 and every
    other non-200 status give [None]. *)
Definition classify (reply : http_reply) : option (option json) :=
  match reply with
  | HTransportError => None
  | HResp status body =>
      if Z.eqb status 429 then None
      else if Z.eqb status 401 then None
      else if negb (Z.eqb status 200) then None
      else Some body
  end.

(** [utils.async_GoveeAPI_GETRequest]: [response.json().get('data')]. *)
Definition async_GoveeAPI_GETRequest (path : string) (w : world) : json * world :=
  let w1 := count_in_world w in
  let r := Req_GET path in
  let w2 := log_request w1 r in
  match classify (http r) with
  | Some (Some body) => (catch JNull (py_get body "data" JNull), w2)
  | _ => (JNull, w2)
  end.

(** [utils.async_GoveeAPI_POSTRequest]: adds a [requestId] when the
    caller gave none, counts the request, posts it, returns
    [response.json()] ([JNull] for [None]). *)
Definition async_GoveeAPI_POSTRequest (path : string) (data : dict) (w : world) : json * world :=
  let '(data', w1) :=
    match dget "requestId" data with
    | None => let '(u, w1) := fresh_uuid w in (dset "requestId" (JStr u) data, w1)
    | Some _ => (data, w)
    end in
  let w2 := count_in_world w1 in
  let r := Req_POST path (JObj data') in
  let w3 := log_request w2 r in
  match classify (http r) with
  | Some (Some body) => (body, w3)
  | _ => (JNull, w3)
  end.

Definition state_body (dev : device_cfg) (u : string) : dict :=
  [("requestId", JStr u);
   ("payload", JObj [("sku", dc_sku dev); ("device", JStr (dc_device dev))])].

(** [utils.async_GoveeAPI_GetDeviceState]: the full-state [replace]. *)
Definition async_GoveeAPI_GetDeviceState (dev : device_cfg) (return_status_code : bool)
    (w : world) : ds_ret * world :=
  let '(u, w1) := fresh_uuid w in
  let '(result, w2) := async_GoveeAPI_POSTRequest "device/state" (state_body dev u) w1 in
  let as_int := match result with
                | JInt z => Some (DSInt z)
                | JBool b => Some (DSBool b)
                | _ => None
                end in
  match as_int with
  | Some r => if return_status_code then (r, w2) else
      (* [result.get] on an int raises: caught *)
      (DSBool false, w2)
  | None =>
      if is_none result then (DSBool false, w2) else
      catch (DSBool false, w2)
        (let* p := py_get result "payload" (JObj []) in
         Ok (DSBool true, set_state w2 (<[dc_device dev := p]> (ed_state (w_entry w2)))))
  end.

(** The matching loop of [async_GoveeAPI_ControlDevice]: index of the
    first cached capability with the echo's [(type, instance)]. *)
Fixpoint find_capability (caps : list json) (new_cap : json) (i : nat) : res (option nat) :=
  match caps with
  | [] => Ok None
  | cap :: rest =>
      let* ct := py_getitem cap "type" in
      let* nt := py_getitem new_cap "type" in
      let* hit := (if py_eqb ct nt
                   then let* ci := py_getitem cap "instance" in
                        let* ni := py_getitem new_cap "instance" in
                        Ok (py_eqb ci ni)
                   else Ok false) in
      if hit then Ok (Some i) else find_capability rest new_cap (S i)
  end.

(** The echoed capability after [value = new_cap.pop('value', None)]
    and [new_cap['state'] = {"value": value}] when [value] is not None. *)
Definition echo_to_cap (nc : dict) : dict :=
  let '(value, nc1) := dpop "value" nc in
  match value with
  | Some v => if is_none v then nc1 else dset "state" (JObj [("value", v)]) nc1
  | None => nc1
  end.

(** [capabilities[i] = new_cap] on the list held by the cached payload
    (the list is shared with the cache, so the write lands there). *)
Definition write_capability (payload : json) (i : nat) (new_cap : json) : json :=
  match payload with
  | JObj p =>
      match dget "capabilities" p with
      | Some (JList caps) => JObj (dset "capabilities" (JList (<[i := new_cap]> caps)) p)
      | _ => payload
      end
  | _ => payload
  end.

Definition control_body (dev : device_cfg) (u : string) (capability : json) : dict :=
  [("requestId", JStr u);
   ("payload", JObj [("sku", dc_sku dev); ("device", JStr (dc_device dev));
                     ("capability", capability)])].

(** [utils.async_GoveeAPI_ControlDevice]: one request for one
    capability command; the echo patches the cache. *)
Definition async_GoveeAPI_ControlDevice (dev : device_cfg) (state_capability : json)
    (w : world) : bool * world :=
  let '(u, w1) := fresh_uuid w in
  let '(result, w2) :=
    async_GoveeAPI_POSTRequest "device/control" (control_body dev u state_capability) w1 in
  if is_none result then (false, w2) else
  catch (false, w2)
    (match result with
     | JObj r =>
         match dget "capability" r with
         | None => Ok (false, w2)
         | Some new_cap =>
             let* nc := (match new_cap with JObj nc => Ok nc | _ => Raise AttributeError end) in
             let nc2 := JObj (echo_to_cap nc) in
             let payload := device_payload (w_entry w2) (dc_device dev) in
             let* capabilities := py_get payload "capabilities" (JList []) in
             let* caps := py_iter capabilities in
             let* hit := find_capability caps nc2 0 in
             match hit with
             | None => Ok (true, w2)
             | Some i =>
                 Ok (true, set_state w2 (<[dc_device dev := write_capability payload i nc2]>
                                          (ed_state (w_entry w2))))
             end
         end
     | _ =>
         (* a list or string result: ['capability' in result] is a
            membership test, and [result['capability']] then raises;
            a number raises at the membership test *)
         Ok (false, w2)
     end).

(** Body of [entities.GoveeAPIUpdateCoordinator._async_update_data], in a
    module whose global names are [globals] (the timeout of
    [async_timeout] is not modelled).  An exception raised inside the
    [try] is matched against the [except] clauses in order; the first
    one names [asyncio.TimeoutError], and reading [asyncio] raises
    [NameError] when it is unbound, which replaces the exception.  When
    [asyncio] is bound, [ConfigEntryAuthFailed] is re-raised and
    [UpdateFailed] is re-raised by [except Exception] as [UpdateFailed]. *)
Definition update_data_in (globals : list string) (dev : device_cfg) (w : world)
    : res ds_ret * world :=
  let '(result, w1) := async_GoveeAPI_GetDeviceState dev true w in
  let raised := match result with
                | DSInt 429 | DSInt 401 => Some ConfigEntryAuthFailed
                | DSBool false => Some UpdateFailed
                | _ => None
                end in
  match raised with
  | None => (Ok result, w1)
  | Some e =>
      match resolve_global globals "asyncio" with
      | Raise e' => (Raise e', w1)
      | Ok _ => (Raise e, w1)
      end
  end.

(** [entities.GoveeAPIUpdateCoordinator._async_update_data]. *)
Definition async_update_data (dev : device_cfg) (w : world) : res ds_ret * world :=
  update_data_in entities_globals dev w.

(** Home Assistant's [async_config_entry_first_refresh]: an update
    failure becomes [ConfigEntryNotReady], an authentication failure is
    re-raised. *)
Definition async_config_entry_first_refresh (dev : device_cfg) (w : world) : res unit * world :=
  let '(r, w1) := async_update_data dev w in
  match r with
  | Ok _ => (Ok tt, w1)
  | Raise ConfigEntryAuthFailed => (Raise ConfigEntryAuthFailed, w1)
  | Raise _ => (Raise ConfigEntryNotReady, w1)
  end.

(** The per-device loop of [__init__.async_setup_entry]: initial state
    fetch (result ignored), coordinator first refresh, and the
    coordinator stored on success.  Every exception of one device is
    caught ([except Exception as device_error: ... continue]).  The
    event subscription and the scene merge that follow issue further
    requests but never touch [CONF_STATE] or the coordinator table, and
    their exceptions are caught as well: they are not modelled. *)
Fixpoint setup_coordinators (devs : list device_cfg) (coords : list string) (w : world)
    : list string * world :=
  match devs with
  | [] => (coords, w)
  | dev :: rest =>
      let '(_, w1) := async_GoveeAPI_GetDeviceState dev false w in
      let '(r, w2) := async_config_entry_first_refresh dev w1 in
      match r with
      | Ok _ => setup_coordinators rest (coords ++ [dc_device dev]) w2
      | Raise _ => setup_coordinators rest coords w2
      end
  end.
End api.

(* ------------------------------------------------------------------ *)
(** ** Python numbers: [int] to [float], [round] *)

(** [float(z)] (exact below 2^53, which covers the values used here). *)
Definition float_of_Z (z : Z) : float :=
  if Z.ltb z 0 then PrimFloat.opp (PrimFloat.of_uint63 (Uint63.of_Z (- z)))
  else PrimFloat.of_uint63 (Uint63.of_Z z).

(** Round half to even of the exact rational [m * 2^e], [m > 0]. *)
Definition round_half_even (m : Z) (e : Z) : Z :=
  if Z.leb 0 e then m * 2 ^ e
  else
    let d := 2 ^ (- e) in
    let q := m / d in
    let r := m mod d in
    if Z.ltb (2 * r) d then q
    else if Z.ltb d (2 * r) then q + 1
    else if Z.even q then q else q + 1.

(** Python's [round(x)] on a float: the nearest integer of the exact
    binary value, ties to even; infinities and NaN raise. *)
Definition py_round (f : float) : res Z :=
  match Prim2SF f with
  | S754_zero _ => Ok 0
  | S754_finite s m e =>
      let r := round_half_even (Zpos m) e in
      Ok (if s then - r else r)
  | S754_infinity _ => Raise ArithmeticError
  | S754_nan => Raise ArithmeticError
  end.

(* ------------------------------------------------------------------ *)
(** ** Light conversions ([light.py]) *)

(** [light.brightness_to_value]:
    [round(((max - min) * (brightness / 255)) + min)], in floats. *)
Definition brightness_to_value (scale : Z * Z) (brightness : Z) : res Z :=
  let '(min_value, max_value) := scale in
  py_round (PrimFloat.add
              (PrimFloat.mul (float_of_Z (max_value - min_value))
                             (PrimFloat.div (float_of_Z brightness) (float_of_Z 255)))
              (float_of_Z min_value)).

(** The decoding of [GoveeLifeLight.rgb_color]. *)
Definition rgb_decode (value : Z) : Z * Z * Z :=
  (Z.land (Z.shiftr value 16) 255, Z.land (Z.shiftr value 8) 255, Z.land value 255).

(** The encoding of [GoveeLifeLight.async_turn_on]:
    [(rgb[0] << 16) + (rgb[1] << 8) + rgb[2]]. *)
Definition rgb_encode (rgb : Z * Z * Z) : Z :=
  let '(r, g, b) := rgb in Z.shiftl r 16 + Z.shiftl g 8 + b.

(** [GoveeLifeLight.rgb_color] on the cached value. *)
Definition rgb_color_of (value : json) : res (option (Z * Z * Z)) :=
  match value with
  | JNull => Ok None
  | JInt z => Ok (Some (rgb_decode z))
  | JBool b => Ok (Some (rgb_decode (if b then 1 else 0)))
  | _ => Raise TypeError
  end.

Definition rgb_color (ed : entry_data) (device : string) : res (option (Z * Z * Z)) :=
  rgb_color_of (GoveeAPI_GetCachedStateValue ed device "devices.capabilities.color_setting" "colorRgb").

(* ------------------------------------------------------------------ *)
(** ** Dicts keyed by JSON values (Python hashing) *)

(** First binding of a key, keys compared with Python's [==]. *)
Fixpoint hfind {A} (k : json) (d : list (json * A)) : option A :=
  match d with
  | [] => None
  | (k', v) :: r => if py_eqb k' k then Some v else hfind k r
  end.

(** [d.get(k)]: unhashable keys raise [TypeError]. *)
Definition hget {A} (k : json) (d : list (json * A)) : res (option A) :=
  if hashable k then Ok (hfind k d) else Raise TypeError.

Fixpoint hset_aux {A} (k : json) (v : A) (d : list (json * A)) : list (json * A) :=
  match d with
  | [] => [(k, v)]
  | (k', v') :: r => if py_eqb k' k then (k', v) :: r else (k', v') :: hset_aux k v r
  end.

(** [d[k] = v]: overwrite in place or append; unhashable keys raise. *)
Definition hset {A} (k : json) (v : A) (d : list (json * A)) : res (list (json * A)) :=
  if hashable k then Ok (hset_aux k v d) else Raise TypeError.

(** Dicts keyed by Python strings ([STATE_ON], effect names). *)
Fixpoint sget {A} (k : string) (d : list (string * A)) : option A :=
  match d with
  | [] => None
  | (k', v) :: r => if String.eqb k k' then Some v else sget k r
  end.

Fixpoint sset {A} (k : string) (v : A) (d : list (string * A)) : list (string * A) :=
  match d with
  | [] => [(k, v)]
  | (k', v') :: r => if String.eqb k k' then (k', v) :: r else (k', v') :: sset k v r
  end.

(* ------------------------------------------------------------------ *)
(** ** Power state of lights, fans and humidifiers *)

(** [STATE_ON] and [STATE_OFF] of Home Assistant. *)
Definition STATE_ON : string := "on".
Definition STATE_OFF : string := "off".

(** [_state_mapping] (raw option value to [STATE_ON]/[STATE_OFF]) and
    [_state_mapping_set] (the converse). *)
Record power_maps := {
  state_mapping : list (json * string);
  state_mapping_set : list (string * json)
}.

(** One step of [_handle_power_capability]: the state reached, and
    the exception raised if any (earlier writes persist). *)
Definition power_option (option : json) (st : power_maps) : res power_maps :=
  let* name := py_getitem option "name" in
  let tag := if py_eqb name (JStr "on") then Some STATE_ON
             else if py_eqb name (JStr "off") then Some STATE_OFF else None in
  match tag with
  | None => Ok st
  | Some s =>
      let* v := py_getitem option "value" in
      let* m1 := hset v s (state_mapping st) in
      Ok {| state_mapping := m1; state_mapping_set := sset s v (state_mapping_set st) |}
  end.

Fixpoint power_options (opts : list json) (st : power_maps) : power_maps * res unit :=
  match opts with
  | [] => (st, Ok tt)
  | o :: rest =>
      match power_option o st with
      | Ok st' => power_options rest st'
      | Raise e => (st, Raise e)
      end
  end.

(** [_handle_power_capability], identical in [light.py], [fan.py] and
    [humidifier.py]. *)
Definition handle_power_capability (cap : json) (st : power_maps) : power_maps * res unit :=
  match (let* params := py_getitem cap "parameters" in
         let* opts := py_getitem params "options" in
         py_iter opts) with
  | Raise e => (st, Raise e)
  | Ok opts => power_options opts st
  end.

(** The [on_off] branch of [_init_platform_specific]: each capability in
    its own [try], a failure is logged and the loop goes on. *)
Fixpoint init_power (caps : list json) (st : power_maps) : power_maps :=
  match caps with
  | [] => st
  | cap :: rest =>
      let st' := match py_getitem cap "type" with
                 | Ok ty => if py_eqb ty (JStr "devices.capabilities.on_off")
                            then fst (handle_power_capability cap st) else st
                 | Raise _ => st
                 end in
      init_power rest st'
  end.

Definition empty_power : power_maps := {| state_mapping := []; state_mapping_set := [] |}.

(** [is_on] on a cached value: [self._state_mapping.get(value) == STATE_ON]. *)
Definition is_on_value (st : power_maps) (value : json) : res bool :=
  let* o := hget value (state_mapping st) in
  Ok (bool_decide (o = Some STATE_ON)).

(** [GoveeLifeLight.is_on], [GoveeLifeFan.is_on], [GoveeLifeHumidifier.is_on]. *)
Definition is_on (st : power_maps) (ed : entry_data) (device : string) : res bool :=
  is_on_value st (GoveeAPI_GetCachedStateValue ed device "devices.capabilities.on_off" "powerSwitch").

(* ------------------------------------------------------------------ *)
(** ** [GoveeLifeLight.async_turn_on] *)

(** The light attributes [async_turn_on] reads. *)
Record light := {
  l_dev : device_cfg;
  l_brightness_scale : Z * Z;
  l_power : power_maps;
  l_music_modes : list (string * json);
  l_scene_modes : list (string * json)
}.

(** The keyword arguments of a turn-on call. *)
Record turn_on_kwargs := {
  kw_brightness : option Z;
  kw_color_temp_kelvin : option Z;
  kw_rgb_color : option (Z * Z * Z);
  kw_effect : option string
}.

Definition command (type instance : string) (value : json) : json :=
  JObj [("type", JStr type); ("instance", JStr instance); ("value", value)].

Definition opt_cmd (o : option json) : list json :=
  match o with Some c => [c] | None => [] end.

(** The [commands] list [async_turn_on] builds, the power command
    appended last when the light is off or nothing else was asked. *)
Definition turn_on_commands (L : light) (kw : turn_on_kwargs) (ed : entry_data) : res (list json) :=
  let* c_bright :=
    match kw_brightness kw with
    | Some b => let* v := brightness_to_value (l_brightness_scale L) b in
                Ok [command "devices.capabilities.range" "brightness" (JInt v)]
    | None => Ok []
    end in
  let c_temp := opt_cmd ((fun k => command "devices.capabilities.color_setting" "colorTemperatureK" (JInt k))
                           <$> kw_color_temp_kelvin kw) in
  let c_rgb := opt_cmd ((fun rgb => command "devices.capabilities.color_setting" "colorRgb" (JInt (rgb_encode rgb)))
                          <$> kw_rgb_color kw) in
  let c_effect :=
    match kw_effect kw with
    | Some effect =>
        match (if String.prefix "Music:" effect then sget effect (l_music_modes L) else None) with
        | Some v => [command "devices.capabilities.music_setting" "musicMode" v]
        | None =>
            match sget effect (l_scene_modes L) with
            | Some v => [command "devices.capabilities.dynamic_scene" "lightScene" v]
            | None => []
            end
        end
    | None => []
    end in
  let commands := c_bright ++ c_temp ++ c_rgb ++ c_effect in
  let* on := is_on (l_power L) ed (dc_device (l_dev L)) in
  if negb on || bool_decide (commands = []) then
    let* v := (match sget STATE_ON (state_mapping_set (l_power L)) with
               | Some v => Ok v
               | None => Raise KeyError
               end) in
    Ok (commands ++ [command "devices.capabilities.on_off" "powerSwitch" v])
  else Ok commands.

Section light_entity.
Variable http : request -> http_reply.
Variable uuid4 : nat -> string.
Variable today : Z.

(** [for command in commands: await async_GoveeAPI_ControlDevice(...)]
    (state writes to Home Assistant and the 0.1 s sleep are not modelled). *)
Fixpoint send_commands (dev : device_cfg) (commands : list json) (w : world) : world :=
  match commands with
  | [] => w
  | c :: rest => send_commands dev rest (snd (async_GoveeAPI_ControlDevice http uuid4 today dev c w))
  end.

(** [GoveeLifeLight.async_turn_on]. *)
Definition light_turn_on (L : light) (kw : turn_on_kwargs) (w : world) : res world :=
  let* commands := turn_on_commands L kw (w_entry w) in
  Ok (send_commands (l_dev L) commands w).
End light_entity.

(* ------------------------------------------------------------------ *)
(** ** Work modes of humidifiers ([humidifier.py]) *)

(** [_modes_mapping]: mode name to its [(workMode, modeValue)] pair. *)
Abbreviation modes := (list (json * (json * json))).

Fixpoint str_contains (pat s : string) : bool :=
  String.prefix pat s ||
  match s with
  | EmptyString => false
  | String _ s' => str_contains pat s'
  end.

(** [pat in str(j)] for a [pat] made of letters: the text of [repr(j)]
    around keys and strings is punctuation, so [pat] occurs in [repr(j)]
    exactly when it occurs in a key or a string value. *)
Fixpoint repr_mentions (pat : string) (j : json) : bool :=
  match j with
  | JStr s => str_contains pat s
  | JList l =>
      (fix go (l : list json) : bool :=
         match l with [] => false | x :: r => repr_mentions pat x || go r end) l
  | JObj d =>
      (fix go (d : dict) : bool :=
         match d with
         | [] => false
         | (k, v) :: r => str_contains pat k || repr_mentions pat v || go r
         end) d
  | _ => false
  end.

(** [next((f['options'] for f in fields if f['fieldName'] == 'modeValue'
    and 'gearMode' in str(f)), [])]. *)
Fixpoint find_mode_options (fields : list json) : res json :=
  match fields with
  | [] => Ok (JList [])
  | f :: rest =>
      let* fname := py_getitem f "fieldName" in
      if py_eqb fname (JStr "modeValue") && repr_mentions "gearMode" f
      then py_getitem f "options"
      else find_mode_options rest
  end.

(** [x[0]]. *)
Definition py_index0 (j : json) : res json :=
  match j with
  | JList (x :: _) => Ok x
  | JList [] => Raise IndexError
  | JObj _ => Raise KeyError
  | JStr s => match s with String c _ => Ok (JStr (String c EmptyString)) | EmptyString => Raise IndexError end
  | _ => Raise TypeError
  end.

(** The gear loop: [self._modes_mapping[gear['name']] =
    {'workMode': mode['value'], 'modeValue': gear['value']}]. *)
Fixpoint add_gears (gears : list json) (mode : json) (m : modes) : modes * res unit :=
  match gears with
  | [] => (m, Ok tt)
  | gear :: rest =>
      match (let* base_name := py_getitem gear "name" in
             let* wv := py_getitem mode "value" in
             let* gv := py_getitem gear "value" in
             hset base_name (wv, gv) m) with
      | Ok m' => add_gears rest mode m'
      | Raise e => (m, Raise e)
      end
  end.

(** The loop over the options of the [workMode] field. *)
Fixpoint handle_modes (opts : list json) (fields : list json) (m : modes) : modes * res unit :=
  match opts with
  | [] => (m, Ok tt)
  | mode :: rest =>
      match py_getitem mode "name" with
      | Raise e => (m, Raise e)
      | Ok name =>
          if py_eqb name (JStr "gearMode") then
            match (let* mode_options := find_mode_options fields in
                   if truthy mode_options then
                     let* first := py_index0 mode_options in
                     let* gear_opts := py_get first "options" (JList []) in
                     py_iter gear_opts
                   else Ok []) with
            | Raise e => (m, Raise e)
            | Ok gears =>
                let '(m', r) := add_gears gears mode m in
                match r with
                | Ok _ => handle_modes rest fields m'
                | Raise e => (m', Raise e)
                end
            end
          else
            match (let* wv := py_getitem mode "value" in hset name (wv, JInt 0) m) with
            | Ok m' => handle_modes rest fields m'
            | Raise e => (m, Raise e)
            end
      end
  end.

(** The loop over [cap['parameters']['fields']]. *)
Fixpoint handle_fields (fs : list json) (fields : list json) (m : modes) : modes * res unit :=
  match fs with
  | [] => (m, Ok tt)
  | field :: rest =>
      match py_getitem field "fieldName" with
      | Raise e => (m, Raise e)
      | Ok fname =>
          if py_eqb fname (JStr "workMode") then
            match (let* o := py_getitem field "options" in py_iter o) with
            | Raise e => (m, Raise e)
            | Ok opts =>
                let '(m', r) := handle_modes opts fields m in
                match r with
                | Ok _ => handle_fields rest fields m'
                | Raise e => (m', Raise e)
                end
            end
          else handle_fields rest fields m
      end
  end.

(** [GoveeLifeHumidifier._handle_work_mode_capability]. *)
Definition handle_work_mode_capability (cap : json) (m : modes) : modes * res unit :=
  match py_getitem cap "instance" with
  | Raise e => (m, Raise e)
  | Ok inst =>
      if py_eqb inst (JStr "workMode") then
        match (let* p := py_getitem cap "parameters" in
               let* f := py_getitem p "fields" in
               py_iter f) with
        | Raise e => (m, Raise e)
        | Ok fs => handle_fields fs fs m
        end
      else (m, Ok tt)
  end.

(** The [work_mode] branch of [_init_platform_specific], one [try] per
    capability. *)
Fixpoint init_modes (caps : list json) (m : modes) : modes :=
  match caps with
  | [] => m
  | cap :: rest =>
      let m' := match py_getitem cap "type" with
                | Ok ty => if py_eqb ty (JStr "devices.capabilities.work_mode")
                           then fst (handle_work_mode_capability cap m) else m
                | Raise _ => m
                end in
      init_modes rest m'
  end.

(** The command value of [async_set_mode] for a known mode. *)
Definition set_mode_value (m : modes) (mode : string) : option json :=
  (fun p => JObj [("workMode", p.1); ("modeValue", p.2)]) <$> hfind (JStr mode) m.

(** The loop of [GoveeLifeHumidifier.mode]. *)
Fixpoint mode_lookup (m : modes) (work_mode : json) : res (option json) :=
  match m with
  | [] => Ok None
  | (name, (wv, mv)) :: rest =>
      let* a := py_get work_mode "workMode" JNull in
      let* hit := (if py_eqb wv a
                   then let* b := py_get work_mode "modeValue" (JInt 0) in Ok (py_eqb mv b)
                   else Ok false) in
      if hit then Ok (Some name) else mode_lookup rest work_mode
  end.

(** [GoveeLifeHumidifier.mode] on a cached value. *)
Definition mode_of_value (m : modes) (work_mode : json) : res (option json) :=
  if negb (truthy work_mode) then Ok None else mode_lookup m work_mode.

(* ------------------------------------------------------------------ *)
(** ** Reading the cache: well-formed capability lists *)

(** A cached capability as the data model describes it: a dict with a
    [type] and an [instance]. *)
Definition cap_wfb (c : json) : bool :=
  match c with
  | JObj d => bool_decide (is_Some (dget "type" d)) && bool_decide (is_Some (dget "instance" d))
  | _ => false
  end.

(** The capability is the [(type, instance)] one. *)
Definition cap_matches (t i : string) (c : json) : bool :=
  match c with
  | JObj d =>
      match dget "type" d, dget "instance" d with
      | Some ty, Some inst => py_eqb ty (JStr t) && py_eqb inst (JStr i)
      | _, _ => false
      end
  | _ => false
  end.

(** The capability list of a device in the cache, as
    [GoveeAPI_GetCachedStateValue] and the echo patch read it. *)
Definition cached_caps (ed : entry_data) (device : string) : list json :=
  match device_payload ed device with
  | JObj p => match dget "capabilities" p with Some (JList l) => l | _ => [] end
  | _ => []
  end.

(** The State Cache [get] as the specification words it: the
    [state.value] of the unique matching entry (or the field named after
    the instance inside [state]); absent on no match or missing state. *)
Definition spec_cached_value (caps : list json) (t i : string) : json :=
  match filter (fun c => cap_matches t i c = true) caps with
  | [JObj d] =>
      match dget "state" d with
      | Some (JObj st) =>
          match dget "value" st with
          | Some v => v
          | None => default JNull (dget i st)
          end
      | _ => JNull
      end
  | _ => JNull
  end.

(* ------------------------------------------------------------------ *)
(** ** Concrete devices used by the examples *)

Definition on_off_cap : json :=
  JObj [("type", JStr "devices.capabilities.on_off"); ("instance", JStr "powerSwitch");
        ("parameters", JObj [("dataType", JStr "ENUM");
                             ("options", JList [JObj [("name", JStr "on"); ("value", JInt 1)];
                                                JObj [("name", JStr "off"); ("value", JInt 0)]])])].

Definition brightness_cap : json :=
  JObj [("type", JStr "devices.capabilities.range"); ("instance", JStr "brightness");
        ("parameters", JObj [("unit", JStr "unit.percent");
                             ("range", JObj [("min", JInt 1); ("max", JInt 100); ("precision", JInt 1)])])].

(** A cached capability snapshot [{type, instance, state: {value}}]. *)
Definition snapshot (t i : string) (v : json) : json :=
  JObj [("type", JStr t); ("instance", JStr i); ("state", JObj [("value", v)])].

Definition lamp : device_cfg := {| dc_device := "AA:BB:CC"; dc_sku := JStr "H6008" |}.

(** The cache holding [payload] as the lamp's stored state. *)
Definition cache_with (payload : dict) : entry_data :=
  {| ed_state := <["AA:BB:CC" := JObj payload]> ∅; ed_api_count := None |}.

Definition lamp_off_cache : entry_data :=
  cache_with [("sku", JStr "H6008"); ("device", JStr "AA:BB:CC");
              ("capabilities", JList [snapshot "devices.capabilities.on_off" "powerSwitch" (JInt 0);
                                      snapshot "devices.capabilities.range" "brightness" (JInt 20)])].

Definition lamp_light : light := {|
  l_dev := lamp;
  l_brightness_scale := (1, 100);
  l_power := init_power [on_off_cap; brightness_cap] empty_power;
  l_music_modes := [];
  l_scene_modes := []
|}.

Definition kw_brightness_128 : turn_on_kwargs := {|
  kw_brightness := Some 128; kw_color_temp_kelvin := None; kw_rgb_color := None; kw_effect := None
|}.

Definition start_world (ed : entry_data) : world := {| w_entry := ed; w_sent := []; w_uuid := 0 |}.

(** A [uuid.uuid4()] supply for the examples: distinct strings. *)
Definition test_uuid (n : nat) : string := String (ascii_of_nat (48 + n)) "-uuid".

(** A [device/state] reply for the lamp: switched off, brightness 20. *)
Definition lamp_state_payload : dict :=
  [("sku", JStr "H6008"); ("device", JStr "AA:BB:CC");
   ("capabilities", JList [snapshot "devices.capabilities.on_off" "powerSwitch" (JInt 0);
                           snapshot "devices.capabilities.range" "brightness" (JInt 20)])].

Definition lamp_state_reply : dict :=
  [("requestId", JStr "r1"); ("msg", JStr "success"); ("code", JInt 200);
   ("payload", JObj lamp_state_payload)].

(** An HTTP oracle answering every request with [200] and [body]. *)
Definition reply_always (body : dict) : request -> http_reply :=
  fun _ => HResp 200 (Some (JObj body)).

(** The lamp's cache while it is switched on. *)
Definition lamp_on_cache : entry_data :=
  cache_with [("sku", JStr "H6008"); ("device", JStr "AA:BB:CC");
              ("capabilities", JList [snapshot "devices.capabilities.on_off" "powerSwitch" (JInt 1);
                                      snapshot "devices.capabilities.range" "brightness" (JInt 20)])].

(** A control echo whose capability has no [value]. *)
Definition echo_without_value : dict :=
  [("requestId", JStr "r2"); ("msg", JStr "success"); ("code", JInt 200);
   ("capability", JObj [("type", JStr "devices.capabilities.on_off");
                        ("instance", JStr "powerSwitch")])].

(** The lamp's cache holding only its power state. *)
Definition lamp_power_only_cache : entry_data :=
  cache_with [("sku", JStr "H6008"); ("device", JStr "AA:BB:CC");
              ("capabilities", JList [snapshot "devices.capabilities.on_off" "powerSwitch" (JInt 1)])].

(** The control echo of a command, as the server sends it back. *)
Definition echo_of (cmd : json) : dict :=
  [("requestId", JStr "r3"); ("msg", JStr "success"); ("code", JInt 200); ("capability", cmd)].

(** No mode name other than [s] carries a [(workMode, modeValue)] pair
    that Python's [==] identifies with [(wv, mv)]. *)
Definition mode_pair_unique (m : modes) (s : string) (wv mv : json) : bool :=
  forallb (fun e => negb (py_eqb e.2.1 wv && py_eqb e.2.2 mv) || py_eqb e.1 (JStr s)) m.

(** An option [{name, value}] of a work-mode field. *)
Definition mode_option (name : string) (value : Z) : json :=
  JObj [("name", JStr name); ("value", JInt value)].

(** A humidifier [work_mode] capability: the [workMode] options [opts],
    the gear levels [gears] of [gearMode]. *)
Definition work_mode_cap (opts gears : list json) : json :=
  JObj [("type", JStr "devices.capabilities.work_mode"); ("instance", JStr "workMode");
        ("parameters", JObj [
           ("dataType", JStr "STRUCT");
           ("fields", JList [
              JObj [("fieldName", JStr "workMode"); ("dataType", JStr "ENUM");
                    ("options", JList opts)];
              JObj [("fieldName", JStr "modeValue"); ("dataType", JStr "ENUM");
                    ("options", JList [JObj [("name", JStr "gearMode"); ("options", JList gears)];
                                       JObj [("name", JStr "Custom"); ("defaultValue", JInt 0)]])]])])].

(** Gear mode with three levels, and a custom and an auto mode. *)
Definition humidifier_work_mode : json :=
  work_mode_cap [mode_option "gearMode" 1; mode_option "Custom" 2; mode_option "Auto" 3]
                [mode_option "Low" 1; mode_option "Medium" 2; mode_option "High" 3].

(** Two modes sharing the [workMode] value 3. *)
Definition shared_value_work_mode : json :=
  work_mode_cap [mode_option "gearMode" 1; mode_option "Auto" 3; mode_option "Night" 3]
                [mode_option "Low" 1; mode_option "High" 2].

(* ------------------------------------------------------------------ *)
(** ** Light state read back from the cache ([light.py]) *)

(** [light.value_to_brightness]:
    [round(((value - min) / (max - min)) * 255)], [None] for [None];
    [max = min] is a [ZeroDivisionError]. *)
Definition value_to_brightness (scale : Z * Z) (value : json) : res (option Z) :=
  if is_none value then Ok None else
  let '(min_value, max_value) := scale in
  match num_of value with
  | None => Raise TypeError
  | Some v =>
      if Z.eqb (max_value - min_value) 0 then Raise ArithmeticError
      else let* r := py_round (PrimFloat.mul
                                 (PrimFloat.div (float_of_Z (v - min_value))
                                                (float_of_Z (max_value - min_value)))
                                 (float_of_Z 255)) in
           Ok (Some r)
  end.

(** [GoveeLifeLight.brightness]. *)
Definition light_brightness (L : light) (ed : entry_data) : res (option Z) :=
  value_to_brightness (l_brightness_scale L)
    (GoveeAPI_GetCachedStateValue ed (dc_device (l_dev L)) "devices.capabilities.range" "brightness").

(** The scene table of [GoveeLifeLight._set_default_scenes]:
    [(name, scene_id, param_id)]. *)
Definition default_scenes : list (string * Z * Z) :=
  [("Sunrise", 196, 177); ("Sunset", 197, 178); ("Rainbow", 198, 179);
   ("Sunset Glow", 199, 180); ("Snow flake", 200, 181); ("Aurora", 201, 182);
   ("Forest", 202, 183); ("Ocean", 203, 184); ("Waves", 204, 185);
   ("Fire", 205, 186); ("Dark Clouds", 2457, 2565); ("Morning", 730, 784);
   ("Firefly", 2458, 2568); ("Sky", 731, 785); ("Flowing Light", 2459, 2569);
   ("Flower Field", 732, 786); ("Dense fog", 733, 787); ("Lightning", 734, 788);
   ("Falling Petals", 735, 789); ("Feather", 736, 790); ("Reading", 206, 187);
   ("Night Light", 207, 188); ("Fish tank", 208, 189); ("Graffiti", 209, 190);
   ("Cherry Blossom Festival", 210, 191); ("Eating Dots", 2460, 2570);
   ("Marshmallow", 2463, 2567); ("Goldfish", 737, 791); ("Geometry", 738, 792);
   ("Kaleidoscope", 739, 793); ("Rubik's Cube", 740, 794); ("Train", 741, 795);
   ("Kitchen Aromas", 742, 796); ("Rings", 743, 797); ("Dancing", 211, 192);
   ("Breathe", 212, 193); ("Gradient", 213, 194); ("Cheerful", 214, 195);
   ("Sweet", 215, 196); ("Heartbeat", 2462, 2571); ("Leisure", 744, 798);
   ("Healing", 745, 799); ("Dreamland", 746, 800)].

(** The loop of [_set_default_scenes] on [(_scene_modes, _attr_effect_list)]. *)
Definition set_default_scenes (scenes : list (string * Z * Z))
    (st : list (string * json) * list string) : list (string * json) * list string :=
  fold_left (fun st '(name, scene_id, param_id) =>
               let '(scene_modes, effect_list) := st in
               (sset name (JObj [("id", JInt scene_id); ("paramId", JInt param_id)]) scene_modes,
                if bool_decide (name ∈ effect_list) then effect_list else effect_list ++ [name]))
            scenes st.

(** [_scene_modes] of every light: [_set_default_scenes] is its only
    writer, and it starts empty. *)
Definition default_scene_modes : list (string * json) :=
  fst (set_default_scenes default_scenes ([], [])).

(** [for name, value in self._scene_modes.items():
       if value.get('id') == scene_id: return name]. *)
Fixpoint scene_lookup (scene_modes : list (string * json)) (scene_id : json) : res (option string) :=
  match scene_modes with
  | [] => Ok None
  | (name, value) :: rest =>
      let* i := py_get value "id" JNull in
      if py_eqb i scene_id then Ok (Some name) else scene_lookup rest scene_id
  end.

(** [for name, config in self._music_modes.items():
       if config['musicMode'] == mode_value: return name]. *)
Fixpoint music_lookup (music_modes : list (string * json)) (mode_value : json) : res (option string) :=
  match music_modes with
  | [] => Ok None
  | (name, config) :: rest =>
      let* mv := py_getitem config "musicMode" in
      if py_eqb mv mode_value then Ok (Some name) else music_lookup rest mode_value
  end.

(** [GoveeLifeLight.effect]: the scene first, then the music mode. *)
Definition light_effect (L : light) (ed : entry_data) : res (option string) :=
  let dev := dc_device (l_dev L) in
  let scene := GoveeAPI_GetCachedStateValue ed dev "devices.capabilities.dynamic_scene" "lightScene" in
  let* found :=
    (if truthy scene then
       let scene_id := match scene with JObj d => default JNull (dget "id" d) | _ => JNull end in
       if truthy scene_id then scene_lookup (l_scene_modes L) scene_id else Ok None
     else Ok None) in
  match found with
  | Some name => Ok (Some name)
  | None =>
      let music := GoveeAPI_GetCachedStateValue ed dev "devices.capabilities.music_setting" "musicMode" in
      if truthy music then
        let* mode_value := py_get music "musicMode" JNull in
        music_lookup (l_music_modes L) mode_value
      else Ok None
  end.

(* ------------------------------------------------------------------ *)
(** ** Single-command services of lights, fans and humidifiers *)




Section services.
Variable http : request -> http_reply.
Variable uuid4 : nat -> string.
Variable today : Z.


(** [GoveeLifeHumidifier.async_set_mode] and
    [GoveeLifeFan.async_set_preset_mode]: an unknown name returns before
    any request. *)
Definition async_set_mode (m : modes) (dev : device_cfg) (mode : string) (w : world) : world :=
  match set_mode_value m mode with
  | None => w
  | Some v =>
      snd (async_GoveeAPI_ControlDevice http uuid4 today dev
             (command "devices.capabilities.work_mode" "workMode" v) w)
  end.

End services.


Definition humidifier_mode (m : modes) (ed : entry_data) (device : string) : res (option json) :=
  mode_of_value m (GoveeAPI_GetCachedStateValue ed device "devices.capabilities.work_mode" "workMode").

(* ------------------------------------------------------------------ *)
(** ** Availability ([entities.py]) *)

(** The loop of [GoveeLifePlatformEntity.available]: the [state.value] of
    the online capabilities, the last one with a state winning. *)
Fixpoint online_scan (caps : list json) (value : json) : res json :=
  match caps with
  | [] => Ok value
  | cap :: rest =>
      let* ty := py_getitem cap "type" in
      if py_eqb ty (JStr "devices.capabilities.online") then
        let* cap_state := py_get cap "state" JNull in
        if is_none cap_state then online_scan rest value
        else let* v := py_get cap_state "value" (JBool false) in online_scan rest v
      else online_scan rest value
  end.

(** [GoveeLifePlatformEntity.available]: [entry_data[CONF_STATE][d]]
    raises on an uncached device; every exception gives [False]. *)
Definition available (ed : entry_data) (dev : device_cfg) : json :=
  catch (JBool false)
    (let* payload := (match ed_state ed !! dc_device dev with
                      | Some p => Ok p
                      | None => Raise KeyError
                      end) in
     let* capabilities := py_get payload "capabilities" (JList []) in
     let* caps := py_iter capabilities in
     online_scan caps (JBool false)).

(* ------------------------------------------------------------------ *)
(** ** Webhook events ([__init__.handle_webhook]) *)

(** [d.update(e)]: each key of [e] written into [d] in turn. *)
Definition dict_update (d e : dict) : dict :=
  fold_left (fun acc kv => dset kv.1 (default JNull (dget kv.1 e)) acc) e d.

(** The loop over the config entries: [if device in entry_data.get(CONF_STATE, {}):
    entry_data[CONF_STATE][device].update(event_data)].  An exception
    stops the loop; the entries already updated stay updated. *)
Fixpoint webhook_update (device : json) (ev : dict) (eds : list entry_data)
    : list entry_data * res unit :=
  match eds with
  | [] => ([], Ok tt)
  | ed :: rest =>
      let step : res entry_data :=
        match device with
        | JStr s =>
            match ed_state ed !! s with
            | None => Ok ed
            | Some (JObj pd) =>
                Ok {| ed_state := <[s := JObj (dict_update pd ev)]> (ed_state ed);
                      ed_api_count := ed_api_count ed |}
            | Some _ => Raise AttributeError
            end
        | JList _ | JObj _ => Raise TypeError
        | _ => Ok ed
        end in
      match step with
      | Ok ed' => let '(rest', r) := webhook_update device ev rest in (ed' :: rest', r)
      | Raise e => (ed :: rest, Raise e)
      end
  end.

(** [handle_webhook] on a decoded body: the event fired on the bus (if
    any) and the config entries' data afterwards.  On a non-dict body
    [body['event']] or the membership test raises, and on a non-dict
    event [event_data.get] raises: both are caught before any effect. *)
Definition handle_webhook (body : json) (eds : list entry_data) : option json * list entry_data :=
  if negb (truthy body) then (None, eds) else
  match body with
  | JObj b =>
      match dget "event" b with
      | Some (JObj ev) =>
          let device := default JNull (dget "device" ev) in
          if truthy device then (Some (JObj ev), fst (webhook_update device ev eds))
          else (None, eds)
      | _ => (None, eds)
      end
  | _ => (None, eds)
  end.

(** An HTTP oracle for the control endpoint that echoes the capability
    it was sent, as the vendor's server does on success. *)
Definition echo_server (r : request) : http_reply :=
  match r with
  | Req_POST path (JObj body) =>
      if String.eqb path "device/control" then
        match dget "payload" body with
        | Some (JObj p) =>
            match dget "capability" p with
            | Some c => HResp 200 (Some (JObj [("requestId", default JNull (dget "requestId" body));
                                               ("msg", JStr "success"); ("code", JInt 200);
                                               ("capability", c)]))
            | None => HResp 400 None
            end
        | _ => HResp 400 None
        end
      else HResp 404 None
  | _ => HResp 404 None
  end.

(* ------------------------------------------------------------------ *)
(** ** Color modes of a light ([GoveeLifeLight._init_platform_specific]) *)

Inductive ColorMode := CM_ONOFF | CM_BRIGHTNESS | CM_RGB | CM_COLOR_TEMP.

#[global] Instance ColorMode_eq_dec : EqDecision ColorMode.
Proof. solve_decision. Defined.

(** [set.add(x)]. *)
Definition set_add (x : ColorMode) (s : list ColorMode) : list ColorMode :=
  if bool_decide (x ∈ s) then s else s ++ [x].

(** The light attributes the range and color handlers write. *)
Record light_attrs := {
  la_supported_color_modes : list ColorMode;
  la_color_mode : ColorMode;
  la_brightness_scale : json * json;
  la_min_color_temp_kelvin : json;
  la_max_color_temp_kelvin : json
}.

(** Their values in [GoveeLifeLight.__init__]. *)
Definition initial_light_attrs : light_attrs := {|
  la_supported_color_modes := [CM_ONOFF];
  la_color_mode := CM_ONOFF;
  la_brightness_scale := (JInt 1, JInt 100);
  la_min_color_temp_kelvin := JInt 2000;
  la_max_color_temp_kelvin := JInt 9000
|}.

(** [cap['parameters']['range'][k]]. *)
Definition range_bound (cap : json) (k : string) : res json :=
  let* p := py_getitem cap "parameters" in
  let* r := py_getitem p "range" in
  py_getitem r k.

(** [GoveeLifeLight._handle_range_capability]: the attributes after the
    call (a raise leaves the writes made before it). *)
Definition light_handle_range (cap : json) (a : light_attrs) : light_attrs :=
  match py_getitem cap "instance" with
  | Ok inst =>
      if py_eqb inst (JStr "brightness") then
        match (let* mn := range_bound cap "min" in
               let* mx := range_bound cap "max" in Ok (mn, mx)) with
        | Ok sc =>
            {| la_supported_color_modes :=
                 if bool_decide (CM_ONOFF ∈ la_supported_color_modes a) then [CM_BRIGHTNESS]
                 else set_add CM_BRIGHTNESS (la_supported_color_modes a);
               la_color_mode := la_color_mode a;
               la_brightness_scale := sc;
               la_min_color_temp_kelvin := la_min_color_temp_kelvin a;
               la_max_color_temp_kelvin := la_max_color_temp_kelvin a |}
        | Raise _ => a
        end
      else a
  | Raise _ => a
  end.

(** [GoveeLifeLight._handle_color_capability]. *)
Definition light_handle_color (cap : json) (a : light_attrs) : light_attrs :=
  match py_getitem cap "instance" with
  | Ok inst =>
      if py_eqb inst (JStr "colorRgb") then
        let modes := set_add CM_RGB (la_supported_color_modes a) in
        {| la_supported_color_modes := modes;
           la_color_mode := if bool_decide (CM_COLOR_TEMP ∈ modes) then la_color_mode a else CM_RGB;
           la_brightness_scale := la_brightness_scale a;
           la_min_color_temp_kelvin := la_min_color_temp_kelvin a;
           la_max_color_temp_kelvin := la_max_color_temp_kelvin a |}
      else if py_eqb inst (JStr "colorTemperatureK") then
        let modes := set_add CM_COLOR_TEMP (la_supported_color_modes a) in
        let a1 := {| la_supported_color_modes := modes;
                     la_color_mode := if bool_decide (CM_RGB ∈ modes) then la_color_mode a else CM_COLOR_TEMP;
                     la_brightness_scale := la_brightness_scale a;
                     la_min_color_temp_kelvin := la_min_color_temp_kelvin a;
                     la_max_color_temp_kelvin := la_max_color_temp_kelvin a |} in
        match range_bound cap "min" with
        | Raise _ => a1
        | Ok mn =>
            let a2 := {| la_supported_color_modes := la_supported_color_modes a1;
                         la_color_mode := la_color_mode a1;
                         la_brightness_scale := la_brightness_scale a1;
                         la_min_color_temp_kelvin := mn;
                         la_max_color_temp_kelvin := la_max_color_temp_kelvin a1 |} in
            match range_bound cap "max" with
            | Raise _ => a2
            | Ok mx =>
                {| la_supported_color_modes := la_supported_color_modes a2;
                   la_color_mode := la_color_mode a2;
                   la_brightness_scale := la_brightness_scale a2;
                   la_min_color_temp_kelvin := la_min_color_temp_kelvin a2;
                   la_max_color_temp_kelvin := mx |}
            end
        end
      else a
  | Raise _ => a
  end.

(** The capability loop of [GoveeLifeLight._init_platform_specific], on
    the attributes above (the power and music handlers write others). *)
Fixpoint light_init_attrs (caps : list json) (a : light_attrs) : light_attrs :=
  match caps with
  | [] => a
  | cap :: rest =>
      let a' := match py_getitem cap "type" with
                | Ok ty =>
                    if py_eqb ty (JStr "devices.capabilities.on_off") then a
                    else if py_eqb ty (JStr "devices.capabilities.range") then light_handle_range cap a
                    else if py_eqb ty (JStr "devices.capabilities.color_setting") then light_handle_color cap a
                    else a
                | Raise _ => a
                end in
      light_init_attrs rest a'
  end.

(* ------------------------------------------------------------------ *)
(** ** Finite checks and descriptions used by the properties *)

(** [lo, lo + 1, ..., lo + n - 1]. *)
Definition Zrange (lo n : Z) : list Z := map (fun k => lo + Z.of_nat k) (seq 0 (Z.to_nat n)).

(** A device value [v] read as a brightness in [0..255] and written back
    gives [v] again. *)
Definition device_value_roundtrips (scale : Z * Z) (v : Z) : bool :=
  match value_to_brightness scale (JInt v) with
  | Ok (Some b) =>
      Z.leb 0 b && Z.leb b 255 &&
      match brightness_to_value scale b with Ok v' => Z.eqb v' v | Raise _ => false end
  | _ => false
  end.

(** A brightness [b] written as a device value inside the range and read
    back lands within 1 of [b]. *)
Definition brightness_comes_back (scale : Z * Z) (b : Z) : bool :=
  match brightness_to_value scale b with
  | Ok v =>
      Z.leb scale.1 v && Z.leb v scale.2 &&
      match value_to_brightness scale (JInt v) with
      | Ok (Some b') => Z.leb (Z.abs (b' - b)) 1
      | _ => false
      end
  | Raise _ => false
  end.

(** The effect [name] is a scene of [scene_modes] whose command value,
    once cached, is reported back as [name] by [GoveeLifeLight.effect]. *)
Definition scene_selectable (scene_modes : list (string * json)) (name : string) : bool :=
  negb (String.prefix "Music:" name) &&
  match sget name scene_modes with
  | Some sv =>
      truthy sv &&
      (let sid := match sv with JObj d => default JNull (dget "id" d) | _ => JNull end in
       truthy sid &&
       match scene_lookup scene_modes sid with
       | Ok (Some n) => String.eqb n name
       | _ => false
       end)
  | None => false
  end.

(** The [state.value] an online capability with a state contributes. *)
Definition online_state_value (c : json) : option json :=
  match c with
  | JObj d =>
      match dget "type" d with
      | Some ty =>
          if py_eqb ty (JStr "devices.capabilities.online") then
            match dget "state" d with
            | Some (JObj st) => Some (default (JBool false) (dget "value" st))
            | _ => None
            end
          else None
      | None => None
      end
  | _ => None
  end.

(** A capability [available] reads without raising: a dict with a
    [type], whose [state] is absent, null or a dict. *)
Definition available_wf (c : json) : bool :=
  match c with
  | JObj d =>
      match dget "type" d with
      | Some _ => match dget "state" d with
                  | None | Some JNull | Some (JObj _) => true
                  | Some _ => false
                  end
      | None => false
      end
  | _ => false
  end.

(** One config entry before ([ed]) and after ([ed']) a webhook event
    [ev] for device [d]: the counter and the other devices unchanged, and
    the device's reads taken from the event's capability list when the
    event has one and the device is cached. *)
Definition webhook_entry_after (d : string) (ev : dict) (ed ed' : entry_data) : Prop :=
  ed_api_count ed' = ed_api_count ed /\
  (forall d', d' <> d -> ed_state ed' !! d' = ed_state ed !! d') /\
  forall t i, GoveeAPI_GetCachedStateValue ed' d t i =
    match ed_state ed !! d, dget "capabilities" ev with
    | Some _, Some capsv => catch JNull (let* caps := py_iter capsv in scan_cached caps t i)
    | _, _ => GoveeAPI_GetCachedStateValue ed d t i
    end.

(** A value mapped to [STATE_ON] comes with a recorded [STATE_ON] command
    value. *)
Definition on_recorded (st : power_maps) : Prop :=
  In STATE_ON (map snd (state_mapping st)) -> is_Some (sget STATE_ON (state_mapping_set st)).

(** The capability is the brightness range, resp. the RGB color setting,
    by the tests [_init_platform_specific] and its handlers apply. *)
Definition is_brightness_range (c : json) : bool :=
  match py_getitem c "type", py_getitem c "instance" with
  | Ok ty, Ok inst => py_eqb ty (JStr "devices.capabilities.range") && py_eqb inst (JStr "brightness")
  | _, _ => false
  end.

Definition is_color_rgb (c : json) : bool :=
  match py_getitem c "type", py_getitem c "instance" with
  | Ok ty, Ok inst => py_eqb ty (JStr "devices.capabilities.color_setting") && py_eqb inst (JStr "colorRgb")
  | _, _ => false
  end.

(** A lamp cache with one snapshot of each capability the services write. *)
Definition full_caps : list json :=
  [snapshot "devices.capabilities.on_off" "powerSwitch" (JInt 1);
   snapshot "devices.capabilities.range" "brightness" (JInt 20);
   snapshot "devices.capabilities.color_setting" "colorRgb" (JInt 0);
   snapshot "devices.capabilities.dynamic_scene" "lightScene" (JObj []);
   snapshot "devices.capabilities.work_mode" "workMode" (JObj []);
   snapshot "devices.capabilities.range" "humidity" (JInt 50)].

Definition full_payload : dict :=
  [("sku", JStr "H6008"); ("device", JStr "AA:BB:CC"); ("capabilities", JList full_caps)].

Definition lamp_full_cache : entry_data := cache_with full_payload.

(** The lamp with the scene table every light gets. *)
Definition scene_lamp_light : light := {|
  l_dev := lamp;
  l_brightness_scale := (1, 100);
  l_power := init_power [on_off_cap] empty_power;
  l_music_modes := [];
  l_scene_modes := default_scene_modes
|}.

(** Two cached devices: the lamp and a fan. *)
Definition two_device_cache : entry_data :=
  {| ed_state := <["FF:00" := JObj [("capabilities", JList [])]]>
                   (<["AA:BB:CC" := JObj full_payload]> ∅);
     ed_api_count := None |}.

(** A device listing two online snapshots, the last one online. *)
Definition online_caps : list json :=
  [snapshot "devices.capabilities.online" "online" (JBool false);
   snapshot "devices.capabilities.on_off" "powerSwitch" (JInt 1);
   snapshot "devices.capabilities.online" "online" (JBool true)].

Definition online_cache : entry_data :=
  cache_with [("device", JStr "AA:BB:CC"); ("capabilities", JList online_caps)].

(** A webhook event switching the lamp off. *)
Definition lamp_off_event : dict :=
  [("sku", JStr "H6008"); ("device", JStr "AA:BB:CC");
   ("capabilities", JList [snapshot "devices.capabilities.on_off" "powerSwitch" (JInt 0)])].

(** A power capability that offers only the [off] option. *)
Definition off_only_cap : json :=
  JObj [("type", JStr "devices.capabilities.on_off"); ("instance", JStr "powerSwitch");
        ("parameters", JObj [("dataType", JStr "ENUM");
                             ("options", JList [JObj [("name", JStr "off"); ("value", JInt 0)]])])].

(** The RGB color capability of the device listing. *)
Definition color_rgb_cap : json :=
  JObj [("type", JStr "devices.capabilities.color_setting"); ("instance", JStr "colorRgb");
        ("parameters", JObj [("dataType", JStr "INTEGER");
                             ("range", JObj [("min", JInt 0); ("max", JInt 16777215)])])].

(* ================================================================== *)
(** * Properties *)

Ltac simpl_res := cbn [rbind catch py_getitem py_get py_iter] in *.

(** ** Python equality is reflexive *)

Lemma dget_app_notin (k : string) (pre l : dict) :
  k ∉ map fst pre -> dget k (pre ++ l) = dget k l.
Proof.
  induction pre as [|[k' v'] pre IH]; simpl; intros Hk; [done|].
  destruct (String.eqb_spec k k') as [->|Hne].
  - exfalso. apply Hk. left.
  - apply IH. intros Hin. apply Hk. right. exact Hin.
Qed.

Lemma dict_eqb_refl_aux (d : dict) :
  Forall (fun kv => py_eqb kv.2 kv.2 = true) d ->
  forall pre (seen : list string),
    (forall k, k ∈ map fst pre -> k ∈ seen) ->
    dict_eqb py_eqb (pre ++ d) seen d = true.
Proof.
  induction d as [|[k v] d IH]; intros Hall pre seen Hseen; simpl; [done|].
  inversion Hall as [|? ? Hv Hrest]; subst.
  apply andb_true_intro; split.
  - case_bool_decide as Hin; [done|].
    rewrite dget_app_notin; [simpl; rewrite String.eqb_refl; exact Hv|].
    intros Hk. apply Hin, Hseen, Hk.
  - replace (pre ++ (k, v) :: d) with ((pre ++ [(k, v)]) ++ d) by (rewrite <- app_assoc; done).
    apply IH; [done|].
    intros k' Hk'. rewrite map_app in Hk'. apply elem_of_app in Hk' as [Hk'|Hk'].
    + right. apply Hseen, Hk'.
    + simpl in Hk'. apply list_elem_of_singleton in Hk'. subst. left.
Qed.

Lemma py_eqb_refl (j : json) : py_eqb j j = true.
Proof.
  induction j using json_ind'.
  - done.
  - destruct b; done.
  - apply Z.eqb_refl.
  - apply String.eqb_refl.
  - simpl. induction l as [|x l IHl]; simpl; [done|].
    inversion H; subst. rewrite H2. apply IHl. done.
  - simpl. apply andb_true_intro; split.
    + apply (dict_eqb_refl_aux d H [] []). intros k Hk. inversion Hk.
    + apply forallb_forall. intros k Hk. apply bool_decide_eq_true.
      apply list_elem_of_In. done.
Qed.

Lemma py_eqb_str (j : json) (s : string) : py_eqb j (JStr s) = true <-> j = JStr s.
Proof.
  split.
  - destruct j; simpl; intros H; try discriminate H.
    apply String.eqb_eq in H. subst. done.
  - intros ->. simpl. apply String.eqb_refl.
Qed.

(** ** The daily request counter *)

Lemma count_requests_identity (today : Z) (ed : entry_data) :
  async_GooveAPI_CountRequests today ed = ed.
Proof. reflexivity. Qed.

Lemma count_in_world_identity (today : Z) (w : world) : count_in_world today w = w.
Proof. destruct w as [[st c] sent n]. reflexivity. Qed.

(** What the counter body does once [date] is bound: the update the
    function is written to perform. *)
Lemma count_with_date_bound (today n d : Z) (st : gmap string json) :
  count_requests_in today ("date" :: utils_globals)
    {| ed_state := st; ed_api_count := Some {| cnt_count := n; cnt_date := d |} |} =
  Ok {| ed_state := st;
        ed_api_count := Some {| cnt_count := (if Z.eqb d today then n + 1 else 1); cnt_date := d |} |}.
Proof.
  unfold count_requests_in, resolve_global.
  rewrite bool_decide_eq_true_2 by left.
  simpl. destruct (Z.eqb d today); reflexivity.
Qed.

(** C7 (code_bug): [utils.py] never imports [date], so
    [async_GooveAPI_CountRequests] raises [NameError] at [date.today()],
    logs it and returns: no GET or POST ever changes the stored counter. *)
Theorem api_calls_never_count
    (http : request -> http_reply) (uuid4 : nat -> string) (today : Z)
    (path : string) (data : dict) (w : world) :
  ("date" ∉ utils_globals) /\
  async_GooveAPI_CountRequests today (w_entry w) = w_entry w /\
  ed_api_count (w_entry (snd (async_GoveeAPI_GETRequest http today path w))) = ed_api_count (w_entry w) /\
  ed_api_count (w_entry (snd (async_GoveeAPI_POSTRequest http uuid4 today path data w))) = ed_api_count (w_entry w).
Proof.
  split; [vm_compute; intros H; repeat (apply elem_of_cons in H as [H|H]; [discriminate|]); inversion H|].
  split; [apply count_requests_identity|].
  split.
  - unfold async_GoveeAPI_GETRequest. rewrite count_in_world_identity.
    destruct (classify (http (Req_GET path))) as [[]|]; reflexivity.
  - unfold async_GoveeAPI_POSTRequest.
    destruct (dget "requestId" data); simpl; rewrite count_in_world_identity;
      destruct (classify _) as [[]|]; reflexivity.
Qed.

(** ** RGB values *)

Example rgb_red : rgb_decode 16711680 = (255, 0, 0) /\ rgb_encode (255, 0, 0) = 16711680.
Proof. split; reflexivity. Qed.

(** C8: for every raw RGB value [V] in [0, 2^24), [rgb_color] decodes
    it into [(r, g, b)] and [(r << 16) + (g << 8) + b] gives back [V]. *)
Theorem rgb_roundtrip (V : Z) (HV : 0 <= V < 2 ^ 24) :
  rgb_color_of (JInt V) = Ok (Some (rgb_decode V)) /\ rgb_encode (rgb_decode V) = V.
Proof.
  split; [reflexivity|].
  unfold rgb_encode, rgb_decode.
  change 255 with (Z.ones 8).
  rewrite !Z.land_ones by lia.
  rewrite !Z.shiftr_div_pow2, !Z.shiftl_mul_pow2 by lia.
  change (2 ^ 8) with 256 in *. change (2 ^ 16) with 65536 in *.
  change (2 ^ 24) with 16777216 in *.
  Z.div_mod_to_equations. lia.
Qed.

Lemma rgb_roundtrip_witness :
  (0 <= 16711680 < 2 ^ 24) /\
  rgb_color_of (JInt 16711680) = Ok (Some (rgb_decode 16711680)) /\
  rgb_encode (rgb_decode 16711680) = 16711680.
Proof. split; [lia|]. apply rgb_roundtrip. lia. Defined.

(** ** Brightness conversion *)

(** C9 (counterexample): with the range [1..100], brightness 128 does
    not convert to 50. *)
Lemma brightness_128_not_50 : brightness_to_value (1, 100) 128 <> Ok 50.
Proof.
  assert (H : brightness_to_value (1, 100) 128 = Ok 51) by reflexivity.
  rewrite H. discriminate.
Qed.

(** C9 (amended): with the range [1..100], Home Assistant brightness 128
    converts to [round(1 + 99 * (128 / 255))] = [round(50.69...)] = 51,
    and a turn-on of the switched-off lamp at brightness 128 issues the
    commands [brightness = 51] then [powerSwitch = 1]. *)
Theorem brightness_128_is_51 :
  brightness_to_value (1, 100) 128 = Ok 51 /\
  turn_on_commands lamp_light kw_brightness_128 lamp_off_cache =
    Ok [command "devices.capabilities.range" "brightness" (JInt 51);
        command "devices.capabilities.on_off" "powerSwitch" (JInt 1)].
Proof. split; reflexivity. Qed.

(** ** Reading the cache after a full-state replace *)

Lemma POST_with_request_id (http : request -> http_reply) (uuid4 : nat -> string) (today : Z)
    (path : string) (data : dict) (x : json) (w : world) :
  dget "requestId" data = Some x ->
  async_GoveeAPI_POSTRequest http uuid4 today path data w =
    (match classify (http (Req_POST path (JObj data))) with Some (Some body) => body | _ => JNull end,
     log_request w (Req_POST path (JObj data))).
Proof.
  intros Hid. unfold async_GoveeAPI_POSTRequest. rewrite Hid.
  rewrite count_in_world_identity.
  destruct (classify _) as [[]|]; reflexivity.
Qed.

Lemma cap_wfb_spec (c : json) :
  cap_wfb c = true ->
  exists d ty inst, c = JObj d /\ dget "type" d = Some ty /\ dget "instance" d = Some inst.
Proof.
  destruct c as [| | | | | d]; simpl; try discriminate.
  intros H. apply andb_prop in H as [H1 H2].
  apply bool_decide_eq_true in H1 as [ty Hty].
  apply bool_decide_eq_true in H2 as [inst Hinst].
  exists d, ty, inst. done.
Qed.

(** One step of the [GoveeAPI_GetCachedStateValue] loop over a
    well-formed capability. *)
Lemma scan_cached_cons (c : json) (rest : list json) (t i : string) :
  cap_wfb c = true ->
  scan_cached (c :: rest) t i =
    if cap_matches t i c then
      let* cap_state := py_get c "state" JNull in
      if is_none cap_state then scan_cached rest t i
      else let* legacy := py_get cap_state i JNull in py_get cap_state "value" legacy
    else scan_cached rest t i.
Proof.
  intros Hwf. apply cap_wfb_spec in Hwf as (d & ty & inst & -> & Hty & Hinst).
  simpl. rewrite Hty, Hinst. simpl.
  destruct (py_eqb ty (JStr t)); reflexivity.
Qed.

Lemma scan_cached_no_match (caps : list json) (t i : string) :
  Forall (fun c => cap_wfb c = true) caps ->
  filter (fun c => cap_matches t i c = true) caps = [] ->
  scan_cached caps t i = Ok JNull.
Proof.
  induction caps as [|c rest IH]; intros Hwf Hnone; [done|].
  inversion Hwf as [|? ? Hc Hrest]; subst.
  rewrite scan_cached_cons by done.
  rewrite filter_cons in Hnone.
  destruct (cap_matches t i c) eqn:Hm.
  - rewrite decide_True in Hnone by done. discriminate.
  - rewrite decide_False in Hnone by done. apply IH; done.
Qed.

Lemma scan_cached_spec (caps : list json) (t i : string) :
  Forall (fun c => cap_wfb c = true) caps ->
  (length (filter (fun c => cap_matches t i c = true) caps) <= 1)%nat ->
  catch JNull (scan_cached caps t i) = spec_cached_value caps t i.
Proof.
  induction caps as [|c rest IH]; intros Hwf Hone; [done|].
  inversion Hwf as [|? ? Hc Hrest]; subst.
  rewrite scan_cached_cons by done.
  unfold spec_cached_value in *. rewrite filter_cons in Hone |- *.
  destruct (cap_matches t i c) eqn:Hm.
  - rewrite decide_True in Hone |- * by done.
    simpl in Hone.
    assert (Hnil : filter (fun c => cap_matches t i c = true) rest = []).
    { destruct (filter _ rest); [done|]. simpl in Hone. lia. }
    rewrite Hnil.
    apply cap_wfb_spec in Hc as (d & ty & inst & -> & _ & _).
    simpl. destruct (dget "state" d) as [st|]; simpl.
    + destruct st as [| | | | | sd]; simpl;
        try (rewrite scan_cached_no_match by done; reflexivity); reflexivity.
    + rewrite scan_cached_no_match by done. reflexivity.
  - rewrite decide_False in Hone |- * by done. apply IH; done.
Qed.

(** C4: after a full-state [replace] ([async_GoveeAPI_GetDeviceState]
    storing a reply whose payload holds the capability list [caps]), the
    cached value of [(t, i)] is the [state.value] of the unique matching
    capability (or the field [i] of its [state]), and absent (None) when
    no capability matches or the match has no state. *)
Theorem get_after_replace
    (http : request -> http_reply) (uuid4 : nat -> string) (today : Z)
    (dev : device_cfg) (rsc : bool) (w : world) (r p : dict) (caps : list json) (t i : string) :
  (forall body, http (Req_POST "device/state" body) = HResp 200 (Some (JObj r))) ->
  dget "payload" r = Some (JObj p) ->
  dget "capabilities" p = Some (JList caps) ->
  Forall (fun c => cap_wfb c = true) caps ->
  (length (filter (fun c => cap_matches t i c = true) caps) <= 1)%nat ->
  GoveeAPI_GetCachedStateValue
    (w_entry (snd (async_GoveeAPI_GetDeviceState http uuid4 today dev rsc w))) (dc_device dev) t i
  = spec_cached_value caps t i.
Proof.
  intros Hhttp Hpayload Hcaps Hwf Hone.
  unfold async_GoveeAPI_GetDeviceState. simpl.
  rewrite (POST_with_request_id _ _ _ _ _ (JStr (uuid4 (w_uuid w)))) by reflexivity.
  rewrite Hhttp. simpl. rewrite Hpayload. simpl.
  unfold GoveeAPI_GetCachedStateValue, device_payload. simpl.
  rewrite lookup_insert_eq. simpl. rewrite Hcaps. simpl.
  apply scan_cached_spec; done.
Qed.

Lemma get_after_replace_witness :
  GoveeAPI_GetCachedStateValue
    (w_entry (snd (async_GoveeAPI_GetDeviceState (reply_always lamp_state_reply) test_uuid 0
                     lamp false (start_world (cache_with [])))))
    "AA:BB:CC" "devices.capabilities.range" "brightness" = JInt 20.
Proof.
  rewrite (get_after_replace (reply_always lamp_state_reply) test_uuid 0 lamp false
             (start_world (cache_with [])) lamp_state_reply lamp_state_payload
             [snapshot "devices.capabilities.on_off" "powerSwitch" (JInt 0);
              snapshot "devices.capabilities.range" "brightness" (JInt 20)]).
  - vm_compute. reflexivity.
  - intros body. reflexivity.
  - reflexivity.
  - reflexivity.
  - repeat constructor.
  - vm_compute. lia.
Defined.

(** ** One control request per [async_GoveeAPI_ControlDevice] call *)

(** Each call draws one [requestId], posts exactly one control request
    carrying the one capability it was given, and writes the cache only
    on the paths that return [True]. *)
Lemma control_device_effects (http : request -> http_reply) (uuid4 : nat -> string) (today : Z)
    (dev : device_cfg) (cap : json) (w : world) :
  let '(ok, w') := async_GoveeAPI_ControlDevice http uuid4 today dev cap w in
  w_sent w' = w_sent w ++ [Req_POST "device/control" (JObj (control_body dev (uuid4 (w_uuid w)) cap))] /\
  w_uuid w' = S (w_uuid w) /\
  (ok = false -> w_entry w' = w_entry w).
Proof.
  unfold async_GoveeAPI_ControlDevice. simpl.
  rewrite (POST_with_request_id _ _ _ _ _ (JStr (uuid4 (w_uuid w)))) by reflexivity.
  simpl. unfold catch, rbind.
  repeat case_match; simplify_eq/=; repeat split; intros; simplify_eq/=; done.
Qed.

Lemma send_commands_log (http : request -> http_reply) (uuid4 : nat -> string) (today : Z)
    (dev : device_cfg) (cmds : list json) (w : world) :
  w_sent (send_commands http uuid4 today dev cmds w) =
    w_sent w ++ zip_with (fun n c => Req_POST "device/control" (JObj (control_body dev (uuid4 n) c)))
                         (seq (w_uuid w) (length cmds)) cmds /\
  w_uuid (send_commands http uuid4 today dev cmds w) = (w_uuid w + length cmds)%nat.
Proof.
  revert w. induction cmds as [|c rest IH]; intros w; simpl.
  - rewrite app_nil_r. split; [done | lia].
  - pose proof (control_device_effects http uuid4 today dev c w) as Heff.
    destruct (async_GoveeAPI_ControlDevice http uuid4 today dev c w) as [ok w1] eqn:E.
    simpl. destruct Heff as (Hsent & Huuid & _).
    destruct (IH w1) as [IHs IHu]. rewrite IHs, IHu, Hsent, Huuid.
    split; [|lia]. rewrite <- app_assoc. reflexivity.
Qed.

(** C1 (as the code does it): a turn-on whose commands are [cmds] posts
    one [device/control] request per command, in the order of [cmds],
    each under its own freshly drawn [requestId]; no request carries more
    than one capability. *)
Theorem turn_on_one_request_per_command
    (http : request -> http_reply) (uuid4 : nat -> string) (today : Z)
    (L : light) (kw : turn_on_kwargs) (w : world) (cmds : list json) :
  turn_on_commands L kw (w_entry w) = Ok cmds ->
  exists w', light_turn_on http uuid4 today L kw w = Ok w' /\
    w_sent w' = w_sent w ++
      zip_with (fun n c => Req_POST "device/control" (JObj (control_body (l_dev L) (uuid4 n) c)))
               (seq (w_uuid w) (length cmds)) cmds /\
    w_uuid w' = (w_uuid w + length cmds)%nat.
Proof.
  intros Hcmds. unfold light_turn_on. rewrite Hcmds. simpl.
  eexists. split; [reflexivity|]. apply send_commands_log.
Qed.

Lemma turn_on_one_request_per_command_witness :
  turn_on_commands lamp_light kw_brightness_128 lamp_off_cache =
    Ok [command "devices.capabilities.range" "brightness" (JInt 51);
        command "devices.capabilities.on_off" "powerSwitch" (JInt 1)] /\
  exists w', light_turn_on (fun _ => HTransportError) test_uuid 0 lamp_light kw_brightness_128
               (start_world lamp_off_cache) = Ok w' /\
    w_sent w' = [] ++
      zip_with (fun n c => Req_POST "device/control" (JObj (control_body (l_dev lamp_light) (test_uuid n) c)))
               (seq 0 2)
               [command "devices.capabilities.range" "brightness" (JInt 51);
                command "devices.capabilities.on_off" "powerSwitch" (JInt 1)] /\
    w_uuid w' = (0 + 2)%nat.
Proof.
  split; [vm_compute; reflexivity|].
  apply (turn_on_one_request_per_command (fun _ => HTransportError) test_uuid 0 lamp_light
           kw_brightness_128 (start_world lamp_off_cache)
           [command "devices.capabilities.range" "brightness" (JInt 51);
            command "devices.capabilities.on_off" "powerSwitch" (JInt 1)]).
  vm_compute. reflexivity.
Defined.

(** C1 (counterexample): turning the switched-off lamp on at brightness
    128 puts two separate control requests on the network, with two
    different [requestId]s, each carrying a single capability. *)
Lemma turn_on_two_requests :
  exists w', light_turn_on (fun _ => HTransportError) test_uuid 0 lamp_light kw_brightness_128
               (start_world lamp_off_cache) = Ok w' /\
    w_sent w' =
      [Req_POST "device/control"
         (JObj (control_body lamp "0-uuid" (command "devices.capabilities.range" "brightness" (JInt 51))));
       Req_POST "device/control"
         (JObj (control_body lamp "1-uuid" (command "devices.capabilities.on_off" "powerSwitch" (JInt 1))))].
Proof. eexists. split; [vm_compute; reflexivity | vm_compute; reflexivity]. Qed.

(** ** Patching the cache from a control echo *)

Lemma dget_dset_eq (k : string) (v : json) (d : dict) : dget k (dset k v d) = Some v.
Proof.
  induction d as [|[k' v'] r IH]; simpl.
  - by rewrite String.eqb_refl.
  - destruct (String.eqb_spec k k') as [->|Hne]; simpl.
    + by rewrite String.eqb_refl.
    + apply String.eqb_neq in Hne. by rewrite Hne.
Qed.

Lemma dget_dset_ne (k k' : string) (v : json) (d : dict) :
  k <> k' -> dget k (dset k' v d) = dget k d.
Proof.
  intros Hne. induction d as [|[k'' v'] r IH]; simpl.
  - apply String.eqb_neq in Hne. by rewrite Hne.
  - destruct (String.eqb_spec k' k'') as [->|Hne']; simpl.
    + apply String.eqb_neq in Hne. by rewrite Hne.
    + by rewrite IH.
Qed.

Lemma dget_dpop (k k' : string) (d : dict) :
  fst (dpop k' d) = dget k' d /\ (k <> k' -> dget k (snd (dpop k' d)) = dget k d).
Proof.
  induction d as [|[k'' v'] r IH]; simpl; [done|].
  destruct (String.eqb_spec k' k'') as [->|Hne].
  - split; [done|]. intros Hne. simpl. apply String.eqb_neq in Hne. by rewrite Hne.
  - destruct (dpop k' r) as [o r'] eqn:E. simpl in *. destruct IH as [IH1 IH2].
    split; [done|]. intros Hk. simpl. destruct (String.eqb k k''); [done|]. by apply IH2.
Qed.

Lemma dset_dget_same (k : string) (v : json) (d : dict) :
  dget k d = Some v -> dset k v d = d.
Proof.
  induction d as [|[k' v'] r IH]; simpl; [done|].
  destruct (String.eqb_spec k k') as [->|Hne].
  - by intros [= ->].
  - intros H. by rewrite IH.
Qed.

(** The echoed capability keeps its [type] and [instance], and a non-null
    [value] ends up as [state = {"value": value}]. *)
Lemma echo_to_cap_fields (nc : dict) (v : json) :
  dget "value" nc = Some v -> is_none v = false ->
  dget "type" (echo_to_cap nc) = dget "type" nc /\
  dget "instance" (echo_to_cap nc) = dget "instance" nc /\
  dget "state" (echo_to_cap nc) = Some (JObj [("value", v)]).
Proof.
  intros Hv Hnn. unfold echo_to_cap.
  pose proof (dget_dpop "type" "value" nc) as [H1 Ht].
  pose proof (dget_dpop "instance" "value" nc) as [_ Hi].
  destruct (dpop "value" nc) as [o nc1]. simpl in *. rewrite H1, Hv, Hnn.
  rewrite !dget_dset_ne by done. rewrite dget_dset_eq.
  split; [by apply Ht | split; [by apply Hi | done]].
Qed.

(** The matching loop finds the first capability that [cap_matches]. *)
Lemma find_capability_first (caps : list json) (nc : json) (t i : string) (n : nat) :
  Forall (fun c => cap_wfb c = true) caps ->
  py_getitem nc "type" = Ok (JStr t) -> py_getitem nc "instance" = Ok (JStr i) ->
  find_capability caps nc n =
    Ok ((fun p => (n + p.1)%nat) <$> list_find (fun c => cap_matches t i c = true) caps).
Proof.
  intros Hwf Ht Hi. revert n.
  induction caps as [|c rest IH]; intros n; [done|].
  inversion Hwf as [|? ? Hc Hrest]; subst.
  apply cap_wfb_spec in Hc as Hc'. destruct Hc' as (d & ty & inst & -> & Hty & Hinst).
  simpl. rewrite Hty, Ht. simpl.
  destruct (py_eqb ty (JStr t)) eqn:Et; simpl.
  - rewrite Hinst, Hi. simpl.
    destruct (py_eqb inst (JStr i)) eqn:Ei; simpl.
    + by rewrite Nat.add_0_r.
    + rewrite IH by done. destruct (list_find _ rest) as [[k x]|]; simpl;
        [do 2 f_equal; apply plus_n_Sm | reflexivity].
  - rewrite Hinst. simpl.
    rewrite IH by done. destruct (list_find _ rest) as [[k x]|]; simpl;
      [do 2 f_equal; apply plus_n_Sm | reflexivity].
Qed.

(** After the first match at [k] is overwritten by a capability whose
    state holds [value = v], [get] reads [v]. *)
Lemma scan_cached_after_patch (caps : list json) (k : nat) (c : json) (nd : dict) (t i : string) (v : json) :
  Forall (fun c => cap_wfb c = true) caps ->
  list_find (fun c => cap_matches t i c = true) caps = Some (k, c) ->
  dget "type" nd = Some (JStr t) -> dget "instance" nd = Some (JStr i) ->
  dget "state" nd = Some (JObj [("value", v)]) ->
  scan_cached (<[k := JObj nd]> caps) t i = Ok v.
Proof.
  intros Hwf Hfind Ht Hi Hs. revert k Hfind.
  induction caps as [|c0 rest IH]; intros k Hfind; [done|].
  inversion Hwf as [|? ? Hc0 Hrest]; subst.
  simpl in Hfind. destruct (decide (cap_matches t i c0 = true)) as [Hm|Hm].
  - injection Hfind as <- <-.
    change (<[0%nat := JObj nd]> (c0 :: rest)) with (JObj nd :: rest).
    rewrite scan_cached_cons by (simpl; rewrite Ht, Hi; done).
    simpl. rewrite Ht, Hi, !py_eqb_refl, Hs. reflexivity.
  - destruct (list_find _ rest) as [[k' c']|] eqn:E; [|done].
    injection Hfind as <- <-.
    change (<[S k' := JObj nd]> (c0 :: rest)) with (c0 :: <[k' := JObj nd]> rest).
    rewrite scan_cached_cons by done.
    apply not_true_is_false in Hm. rewrite Hm.
    by apply IH.
Qed.

(** ** Failed control calls *)

Lemma classify_not_200 (s : Z) (b : option json) :
  s <> 200 -> classify (HResp s b) = None.
Proof.
  intros Hs. unfold classify.
  destruct (Z.eqb_spec s 429); [done|]. destruct (Z.eqb_spec s 401); [done|].
  destruct (Z.eqb_spec s 200); done.
Qed.

(** An echoed capability without [value] is stored as it came. *)
Lemma echo_to_cap_no_value (nc : dict) :
  dget "value" nc = None -> echo_to_cap nc = nc.
Proof.
  intros Hv. unfold echo_to_cap.
  assert (Hp : dpop "value" nc = (None, nc)).
  { clear -Hv. revert Hv. induction nc as [|[k v] r IH]; cbn [dget dpop]; [done|].
    destruct (String.eqb "value" k); [by intros ?|]. intros Hv. by rewrite IH. }
  by rewrite Hp.
Qed.

(** C2 (as the code does it): a control call that returns [False]
    leaves the State Cache as it was, so every later [get] returns the
    value cached before; and the call returns [False] on a transport
    error, a status other than 200, a reply with no JSON body or a null
    body, and an echo without a [capability] field.  An echo whose
    capability has a [type] and an [instance] but no [value] is not a
    failure: when the device's cached capabilities each have a [type] and
    an [instance], the call returns [True]. *)
Theorem control_failure_keeps_cache
    (http : request -> http_reply) (uuid4 : nat -> string) (today : Z)
    (dev : device_cfg) (cap : json) (w : world) (reply : http_reply) :
  (forall body, http (Req_POST "device/control" body) = reply) ->
  (fst (async_GoveeAPI_ControlDevice http uuid4 today dev cap w) = false ->
   w_entry (snd (async_GoveeAPI_ControlDevice http uuid4 today dev cap w)) = w_entry w /\
   forall d t i,
     GoveeAPI_GetCachedStateValue (w_entry (snd (async_GoveeAPI_ControlDevice http uuid4 today dev cap w))) d t i
     = GoveeAPI_GetCachedStateValue (w_entry w) d t i) /\
  (reply = HTransportError \/ (exists s b, reply = HResp s b /\ s <> 200) \/
   reply = HResp 200 None \/ reply = HResp 200 (Some JNull) \/
   (exists r, reply = HResp 200 (Some (JObj r)) /\ dget "capability" r = None) ->
   fst (async_GoveeAPI_ControlDevice http uuid4 today dev cap w) = false) /\
  (forall r nc t i p caps,
   reply = HResp 200 (Some (JObj r)) ->
   dget "capability" r = Some (JObj nc) -> dget "value" nc = None ->
   dget "type" nc = Some (JStr t) -> dget "instance" nc = Some (JStr i) ->
   ed_state (w_entry w) !! dc_device dev = Some (JObj p) ->
   dget "capabilities" p = Some (JList caps) ->
   Forall (fun c => cap_wfb c = true) caps ->
   fst (async_GoveeAPI_ControlDevice http uuid4 today dev cap w) = true).
Proof.
  intros Hhttp. split; [|split].
  - pose proof (control_device_effects http uuid4 today dev cap w) as Heff.
    destruct (async_GoveeAPI_ControlDevice http uuid4 today dev cap w) as [ok w'].
    simpl. intros ->. destruct Heff as (_ & _ & He). rewrite He by done.
    split; done.
  - intros Hfail. unfold async_GoveeAPI_ControlDevice. simpl.
    rewrite (POST_with_request_id _ _ _ _ _ (JStr (uuid4 (w_uuid w)))) by reflexivity.
    rewrite Hhttp.
    destruct Hfail as [-> | [(s & b & -> & Hs) | [-> | [-> | (r & -> & Hr)]]]].
    + reflexivity.
    + rewrite classify_not_200 by done. reflexivity.
    + reflexivity.
    + reflexivity.
    + simpl. rewrite Hr. reflexivity.
  - intros r nc t i p caps Hrep Hr Hv Ht Hi Hst Hcaps Hwf.
    unfold async_GoveeAPI_ControlDevice. simpl.
    rewrite (POST_with_request_id _ _ _ _ _ (JStr (uuid4 (w_uuid w)))) by reflexivity.
    rewrite Hhttp, Hrep. simpl. rewrite Hr. simpl.
    rewrite (echo_to_cap_no_value nc Hv).
    unfold device_payload. simpl. rewrite Hst. simpl. rewrite Hcaps. simpl.
    rewrite (find_capability_first caps (JObj nc) t i 0) by (simpl; rewrite ?Ht, ?Hi; done).
    destruct (list_find _ caps); reflexivity.
Qed.

Lemma control_failure_keeps_cache_witness :
  (fst (async_GoveeAPI_ControlDevice (fun _ => HResp 500 None) test_uuid 0 lamp
          (command "devices.capabilities.on_off" "powerSwitch" (JInt 0)) (start_world lamp_on_cache)) = false ->
   w_entry (snd (async_GoveeAPI_ControlDevice (fun _ => HResp 500 None) test_uuid 0 lamp
                   (command "devices.capabilities.on_off" "powerSwitch" (JInt 0)) (start_world lamp_on_cache)))
     = w_entry (start_world lamp_on_cache) /\
   forall d t i,
     GoveeAPI_GetCachedStateValue
       (w_entry (snd (async_GoveeAPI_ControlDevice (fun _ => HResp 500 None) test_uuid 0 lamp
                        (command "devices.capabilities.on_off" "powerSwitch" (JInt 0)) (start_world lamp_on_cache)))) d t i
     = GoveeAPI_GetCachedStateValue (w_entry (start_world lamp_on_cache)) d t i) /\
  (HResp 500 None = HTransportError \/ (exists s b, HResp 500 None = HResp s b /\ s <> 200) \/
   HResp 500 None = HResp 200 None \/ HResp 500 None = HResp 200 (Some JNull) \/
   (exists r, HResp 500 None = HResp 200 (Some (JObj r)) /\ dget "capability" r = None) ->
   fst (async_GoveeAPI_ControlDevice (fun _ => HResp 500 None) test_uuid 0 lamp
          (command "devices.capabilities.on_off" "powerSwitch" (JInt 0)) (start_world lamp_on_cache)) = false) /\
  (forall r nc t i p caps,
   HResp 500 None = HResp 200 (Some (JObj r)) ->
   dget "capability" r = Some (JObj nc) -> dget "value" nc = None ->
   dget "type" nc = Some (JStr t) -> dget "instance" nc = Some (JStr i) ->
   ed_state (w_entry (start_world lamp_on_cache)) !! dc_device lamp = Some (JObj p) ->
   dget "capabilities" p = Some (JList caps) ->
   Forall (fun c => cap_wfb c = true) caps ->
   fst (async_GoveeAPI_ControlDevice (fun _ => HResp 500 None) test_uuid 0 lamp
          (command "devices.capabilities.on_off" "powerSwitch" (JInt 0)) (start_world lamp_on_cache)) = true).
Proof.
  apply (control_failure_keeps_cache (fun _ => HResp 500 None) test_uuid 0 lamp
           (command "devices.capabilities.on_off" "powerSwitch" (JInt 0)) (start_world lamp_on_cache)
           (HResp 500 None)).
  intros body. reflexivity.
Defined.

(** C2 (counterexample): the lamp is cached as on ([powerSwitch] = 1);
    a control call answered by an echo whose capability has no value
    returns [True] and replaces the cached entry, so [get] no longer
    returns 1 but None. *)
Lemma control_echo_without_value_succeeds :
  GoveeAPI_GetCachedStateValue lamp_on_cache "AA:BB:CC" "devices.capabilities.on_off" "powerSwitch" = JInt 1 /\
  fst (async_GoveeAPI_ControlDevice (reply_always echo_without_value) test_uuid 0 lamp
         (command "devices.capabilities.on_off" "powerSwitch" (JInt 0)) (start_world lamp_on_cache)) = true /\
  GoveeAPI_GetCachedStateValue
    (w_entry (snd (async_GoveeAPI_ControlDevice (reply_always echo_without_value) test_uuid 0 lamp
                     (command "devices.capabilities.on_off" "powerSwitch" (JInt 0)) (start_world lamp_on_cache))))
    "AA:BB:CC" "devices.capabilities.on_off" "powerSwitch" = JNull.
Proof. vm_compute. repeat split. Qed.

(** C3 (as the code does it): a control call whose echo carries the
    capability [(t, i)] with a non-null [value] returns [True]. When the
    cached capability list of the device has an entry [(t, i)], the first
    such entry is overwritten by the echoed capability (its value moved
    under [state.value]), every other entry stays as it was, and a [get]
    on [(t, i)] afterwards returns the echoed value. When no entry
    matches, the cache is left as it was: nothing is appended. *)
Theorem control_echo_patches_first_match
    (http : request -> http_reply) (uuid4 : nat -> string) (today : Z)
    (dev : device_cfg) (cap : json) (w : world) (p : dict) (caps : list json)
    (r nc : dict) (t i : string) (v : json) :
  ed_state (w_entry w) !! dc_device dev = Some (JObj p) ->
  dget "capabilities" p = Some (JList caps) ->
  Forall (fun c => cap_wfb c = true) caps ->
  (forall body, http (Req_POST "device/control" body) = HResp 200 (Some (JObj r))) ->
  dget "capability" r = Some (JObj nc) ->
  dget "type" nc = Some (JStr t) -> dget "instance" nc = Some (JStr i) ->
  dget "value" nc = Some v -> is_none v = false ->
  let '(ok, w') := async_GoveeAPI_ControlDevice http uuid4 today dev cap w in
  ok = true /\
  (list_find (fun c => cap_matches t i c = true) caps = None -> w_entry w' = w_entry w) /\
  (forall k c, list_find (fun c => cap_matches t i c = true) caps = Some (k, c) ->
     ed_state (w_entry w') =
       <[dc_device dev := JObj (dset "capabilities" (JList (<[k := JObj (echo_to_cap nc)]> caps)) p)]>
         (ed_state (w_entry w)) /\
     (forall j c', caps !! j = Some c' -> cap_matches t i c' = false ->
        <[k := JObj (echo_to_cap nc)]> caps !! j = Some c') /\
     GoveeAPI_GetCachedStateValue (w_entry w') (dc_device dev) t i = v).
Proof.
  intros Hst Hcaps Hwf Hhttp Hr Ht Hi Hv Hnn.
  destruct (echo_to_cap_fields nc v Hv Hnn) as (Ht' & Hi' & Hs').
  unfold async_GoveeAPI_ControlDevice. simpl.
  rewrite (POST_with_request_id _ _ _ _ _ (JStr (uuid4 (w_uuid w)))) by reflexivity.
  rewrite Hhttp. simpl. rewrite Hr. simpl.
  remember (echo_to_cap nc) as nd eqn:End.
  unfold device_payload. simpl. rewrite Hst. simpl. rewrite Hcaps. simpl.
  rewrite (find_capability_first caps (JObj nd) t i 0) by (simpl; rewrite ?Ht', ?Hi', ?Ht, ?Hi; done).
  destruct (list_find (fun c => cap_matches t i c = true) caps) as [[k c]|] eqn:Ef; simpl.
  - split; [done|]. split; [done|].
    intros k' c' [= <- <-]. split; [done|]. split.
    + intros j c' Hj Hm. rewrite list_lookup_insert_ne; [done|].
      intros ->. apply list_find_Some in Ef as (Hk & HP & _). congruence.
    + unfold GoveeAPI_GetCachedStateValue, device_payload. simpl.
      rewrite lookup_insert_eq. simpl. rewrite dget_dset_eq. simpl.
      erewrite scan_cached_after_patch; [reflexivity | done | exact Ef | congruence | congruence | congruence].
  - split; [done|]. split; [done|]. intros k c [=].
Qed.

Lemma control_echo_patches_first_match_witness :
  fst (async_GoveeAPI_ControlDevice
         (reply_always (echo_of (command "devices.capabilities.on_off" "powerSwitch" (JInt 0))))
         test_uuid 0 lamp (command "devices.capabilities.on_off" "powerSwitch" (JInt 0))
         (start_world lamp_on_cache)) = true /\
  GoveeAPI_GetCachedStateValue
    (w_entry (snd (async_GoveeAPI_ControlDevice
                     (reply_always (echo_of (command "devices.capabilities.on_off" "powerSwitch" (JInt 0))))
                     test_uuid 0 lamp (command "devices.capabilities.on_off" "powerSwitch" (JInt 0))
                     (start_world lamp_on_cache))))
    "AA:BB:CC" "devices.capabilities.on_off" "powerSwitch" = JInt 0.
Proof.
  pose proof (control_echo_patches_first_match
    (reply_always (echo_of (command "devices.capabilities.on_off" "powerSwitch" (JInt 0))))
    test_uuid 0 lamp (command "devices.capabilities.on_off" "powerSwitch" (JInt 0))
    (start_world lamp_on_cache)
    [("sku", JStr "H6008"); ("device", JStr "AA:BB:CC");
     ("capabilities", JList [snapshot "devices.capabilities.on_off" "powerSwitch" (JInt 1);
                             snapshot "devices.capabilities.range" "brightness" (JInt 20)])]
    [snapshot "devices.capabilities.on_off" "powerSwitch" (JInt 1);
     snapshot "devices.capabilities.range" "brightness" (JInt 20)]
    (echo_of (command "devices.capabilities.on_off" "powerSwitch" (JInt 0)))
    [("type", JStr "devices.capabilities.on_off"); ("instance", JStr "powerSwitch"); ("value", JInt 0)]
    "devices.capabilities.on_off" "powerSwitch" (JInt 0)) as H.
  destruct (async_GoveeAPI_ControlDevice _ _ _ _ _ _) as [ok w'].
  destruct H as (Hok & _ & Hpatch);
    [reflexivity | reflexivity | repeat constructor | intros body; reflexivity
    | reflexivity | reflexivity | reflexivity | reflexivity | reflexivity |].
  split; [exact Hok|].
  destruct (Hpatch 0%nat (snapshot "devices.capabilities.on_off" "powerSwitch" (JInt 1))) as (_ & _ & Hget).
  - vm_compute. reflexivity.
  - exact Hget.
Defined.

(** C3 (counterexample): the cache holds only the lamp's power state; a
    brightness command echoed back with value 51 returns [True], appends
    nothing, and a [get] on brightness still returns None. *)
Lemma control_echo_not_appended :
  fst (async_GoveeAPI_ControlDevice
         (reply_always (echo_of (command "devices.capabilities.range" "brightness" (JInt 51))))
         test_uuid 0 lamp (command "devices.capabilities.range" "brightness" (JInt 51))
         (start_world lamp_power_only_cache)) = true /\
  w_entry (snd (async_GoveeAPI_ControlDevice
                  (reply_always (echo_of (command "devices.capabilities.range" "brightness" (JInt 51))))
                  test_uuid 0 lamp (command "devices.capabilities.range" "brightness" (JInt 51))
                  (start_world lamp_power_only_cache))) = lamp_power_only_cache /\
  GoveeAPI_GetCachedStateValue
    (w_entry (snd (async_GoveeAPI_ControlDevice
                     (reply_always (echo_of (command "devices.capabilities.range" "brightness" (JInt 51))))
                     test_uuid 0 lamp (command "devices.capabilities.range" "brightness" (JInt 51))
                     (start_world lamp_power_only_cache))))
    "AA:BB:CC" "devices.capabilities.range" "brightness" = JNull.
Proof. split; [vm_compute; reflexivity|]. split; vm_compute; reflexivity. Qed.

(** ** A 401 from the device-state endpoint *)

(** [async_GoveeAPI_POSTRequest] turns the 401 into [None]: the state
    fetch returns [False] and stores nothing, whatever
    [return_status_code] is. *)
Lemma get_state_401 (http : request -> http_reply) (uuid4 : nat -> string) (today : Z)
    (dev : device_cfg) (rsc : bool) (w : world) :
  (forall body, exists b, http (Req_POST "device/state" body) = HResp 401 b) ->
  fst (async_GoveeAPI_GetDeviceState http uuid4 today dev rsc w) = DSBool false /\
  w_entry (snd (async_GoveeAPI_GetDeviceState http uuid4 today dev rsc w)) = w_entry w.
Proof.
  intros H401. unfold async_GoveeAPI_GetDeviceState. simpl.
  rewrite (POST_with_request_id _ _ _ _ _ (JStr (uuid4 (w_uuid w)))) by reflexivity.
  destruct (H401 (JObj (state_body dev (uuid4 (w_uuid w))))) as [b ->].
  destruct rsc; split; reflexivity.
Qed.

Lemma update_data_401 (http : request -> http_reply) (uuid4 : nat -> string) (today : Z)
    (dev : device_cfg) (w : world) :
  (forall body, exists b, http (Req_POST "device/state" body) = HResp 401 b) ->
  fst (async_update_data http uuid4 today dev w) = Raise NameError /\
  w_entry (snd (async_update_data http uuid4 today dev w)) = w_entry w.
Proof.
  intros H401. unfold async_update_data, update_data_in.
  destruct (get_state_401 http uuid4 today dev true w H401) as [Hr He].
  destruct (async_GoveeAPI_GetDeviceState http uuid4 today dev true w) as [r w1].
  simpl in *. subst r. split; [reflexivity | exact He].
Qed.

(** C5 (as the code does it): while the device-state endpoint answers
    401, the setup loop skips every device (no coordinator is stored, no
    exception leaves the loop, nothing is cached), and a poll cycle raises
    [NameError] (no authentication failure: [asyncio] is not bound in
    [entities.py]) and leaves the cached data as it was. *)
Theorem state_401_setup_skips_poll_fails
    (http : request -> http_reply) (uuid4 : nat -> string) (today : Z) :
  (forall body, exists b, http (Req_POST "device/state" body) = HResp 401 b) ->
  ("asyncio" ∉ entities_globals) /\
  (forall devs coords w,
     fst (setup_coordinators http uuid4 today devs coords w) = coords /\
     w_entry (snd (setup_coordinators http uuid4 today devs coords w)) = w_entry w) /\
  (forall dev w,
     fst (async_update_data http uuid4 today dev w) = Raise NameError /\
     w_entry (snd (async_update_data http uuid4 today dev w)) = w_entry w).
Proof.
  intros H401. split; [vm_compute; set_solver|]. split.
  - intros devs. induction devs as [|dev rest IH]; intros coords w; [done|].
    simpl.
    destruct (get_state_401 http uuid4 today dev false w H401) as [_ He1].
    destruct (async_GoveeAPI_GetDeviceState http uuid4 today dev false w) as [r1 w1].
    simpl in He1.
    unfold async_config_entry_first_refresh.
    destruct (update_data_401 http uuid4 today dev w1 H401) as [Hr He2].
    destruct (async_update_data http uuid4 today dev w1) as [r2 w2].
    simpl in Hr, He2. subst r2.
    destruct (IH coords w2) as [IH1 IH2].
    split; [exact IH1 | rewrite IH2, He2, He1; reflexivity].
  - intros dev w. exact (update_data_401 http uuid4 today dev w H401).
Qed.

Lemma state_401_setup_skips_poll_fails_witness :
  ("asyncio" ∉ entities_globals) /\
  (forall devs coords w,
     fst (setup_coordinators (fun _ => HResp 401 None) test_uuid 0 devs coords w) = coords /\
     w_entry (snd (setup_coordinators (fun _ => HResp 401 None) test_uuid 0 devs coords w)) = w_entry w) /\
  (forall dev w,
     fst (async_update_data (fun _ => HResp 401 None) test_uuid 0 dev w) = Raise NameError /\
     w_entry (snd (async_update_data (fun _ => HResp 401 None) test_uuid 0 dev w)) = w_entry w).
Proof.
  apply (state_401_setup_skips_poll_fails (fun _ => HResp 401 None) test_uuid 0).
  intros body. exists None. reflexivity.
Defined.

(** ** Work-mode round trip *)

Lemma mode_lookup_pair (m : modes) (s : string) (wv mv : json) :
  hfind (JStr s) m = Some (wv, mv) ->
  mode_pair_unique m s wv mv = true ->
  mode_lookup m (JObj [("workMode", wv); ("modeValue", mv)]) = Ok (Some (JStr s)).
Proof.
  induction m as [|[n [wv0 mv0]] rest IH]; simpl; [done|].
  intros Hfind Huniq. unfold mode_pair_unique in *. simpl in Huniq.
  apply andb_prop in Huniq as [Hhd Htl].
  destruct (py_eqb wv0 wv) eqn:E1; simpl.
  - destruct (py_eqb mv0 mv) eqn:E2; simpl in *.
    + apply py_eqb_str in Hhd. subst n. reflexivity.
    + destruct (py_eqb n (JStr s)); [injection Hfind as -> ->; by rewrite py_eqb_refl in E2|].
      by apply IH.
  - destruct (py_eqb n (JStr s)); [injection Hfind as -> ->; by rewrite py_eqb_refl in E1|].
    by apply IH.
Qed.

(** C6 (as the code does it): for a mode name [s] the work-mode parser
    produced, with the pair [(wv, mv)], the command value
    [{workMode: wv, modeValue: mv}] that [async_set_mode] builds resolves
    back to [s] through the [mode] lookup, provided no other mode name
    carries a pair equal to [(wv, mv)] under Python's [==]. *)
Theorem mode_round_trip (caps : list json) (s : string) (wv mv : json) :
  hfind (JStr s) (init_modes caps []) = Some (wv, mv) ->
  mode_pair_unique (init_modes caps []) s wv mv = true ->
  set_mode_value (init_modes caps []) s = Some (JObj [("workMode", wv); ("modeValue", mv)]) /\
  mode_of_value (init_modes caps []) (JObj [("workMode", wv); ("modeValue", mv)]) = Ok (Some (JStr s)).
Proof.
  intros Hfind Huniq. split.
  - unfold set_mode_value. rewrite Hfind. reflexivity.
  - unfold mode_of_value. simpl. by apply mode_lookup_pair.
Qed.

Lemma mode_round_trip_witness :
  hfind (JStr "Medium") (init_modes [humidifier_work_mode] []) = Some (JInt 1, JInt 2) /\
  mode_pair_unique (init_modes [humidifier_work_mode] []) "Medium" (JInt 1) (JInt 2) = true /\
  set_mode_value (init_modes [humidifier_work_mode] []) "Medium"
    = Some (JObj [("workMode", JInt 1); ("modeValue", JInt 2)]) /\
  mode_of_value (init_modes [humidifier_work_mode] []) (JObj [("workMode", JInt 1); ("modeValue", JInt 2)])
    = Ok (Some (JStr "Medium")).
Proof.
  split; [vm_compute; reflexivity|]. split; [vm_compute; reflexivity|].
  apply mode_round_trip; vm_compute; reflexivity.
Defined.

(** C6 (counterexample): with two modes sharing a value, the command
    value built for [Night] resolves to [Auto]. *)
Lemma mode_round_trip_shared_value :
  set_mode_value (init_modes [shared_value_work_mode] []) "Night"
    = Some (JObj [("workMode", JInt 3); ("modeValue", JInt 0)]) /\
  mode_of_value (init_modes [shared_value_work_mode] []) (JObj [("workMode", JInt 3); ("modeValue", JInt 0)])
    = Ok (Some (JStr "Auto")).
Proof. split; vm_compute; reflexivity. Qed.

(** ** [is_on] on a value outside the power options *)





(* ================================================================== *)
(** * Further properties of the code *)

(** ** Brightness conversions *)

Lemma Zrange_In (lo n v : Z) : lo <= v < lo + n -> In v (Zrange lo n).
Proof.
  intros H. unfold Zrange. apply in_map_iff. exists (Z.to_nat (v - lo)).
  split; [lia|]. apply in_seq. lia.
Qed.

Lemma forallb_Zrange (f : Z -> bool) (lo n v : Z) :
  forallb f (Zrange lo n) = true -> lo <= v < lo + n -> f v = true.
Proof. intros Hf Hv. rewrite forallb_forall in Hf. apply Hf, Zrange_In, Hv. Qed.

(** Every brightness [b] in [0..255] is written inside the default range
    [1..100], and the device value read back gives [b] within 1. *)
Lemma brightness_back_default_scale (b : Z) :
  0 <= b <= 255 ->
  exists v, brightness_to_value (1, 100) b = Ok v /\ 1 <= v <= 100 /\
    exists b', value_to_brightness (1, 100) (JInt v) = Ok (Some b') /\ Z.abs (b' - b) <= 1.
Proof.
  intros Hb.
  assert (Hc : brightness_comes_back (1, 100) b = true).
  { apply (forallb_Zrange _ 0 256); [vm_compute; reflexivity | lia]. }
  unfold brightness_comes_back in Hc.
  destruct (brightness_to_value (1, 100) b) as [v|] eqn:E; [|discriminate].
  exists v. apply andb_true_iff in Hc as [Hc H3]. apply andb_true_iff in Hc as [H1 H2].
  apply Z.leb_le in H1. apply Z.leb_le in H2. simpl in H1, H2.
  destruct (value_to_brightness (1, 100) (JInt v)) as [[b'|]|] eqn:E'; try discriminate.
  apply Z.leb_le in H3. split; [reflexivity|]. split; [lia|]. exists b'. split; [reflexivity|lia].
Qed.

(** Every device value of the default range [1..100] reads as a
    brightness in [0..255] that converts back to the same device value. *)
Theorem brightness_device_roundtrip (v : Z) (Hv : 1 <= v <= 100) :
  exists b, value_to_brightness (1, 100) (JInt v) = Ok (Some b) /\ 0 <= b <= 255 /\
            brightness_to_value (1, 100) b = Ok v.
Proof.
  assert (Hc : device_value_roundtrips (1, 100) v = true).
  { apply (forallb_Zrange _ 1 100); [vm_compute; reflexivity | lia]. }
  unfold device_value_roundtrips in Hc.
  destruct (value_to_brightness (1, 100) (JInt v)) as [[b|]|] eqn:E; try discriminate.
  exists b. apply andb_true_iff in Hc as [Hc H3]. apply andb_true_iff in Hc as [H1 H2].
  destruct (brightness_to_value (1, 100) b) as [v'|] eqn:E2; [|discriminate].
  apply Z.leb_le in H1. apply Z.leb_le in H2. apply Z.eqb_eq in H3. subst. auto.
Qed.

Lemma brightness_device_roundtrip_witness :
  exists b, value_to_brightness (1, 100) (JInt 20) = Ok (Some b) /\ 0 <= b <= 255 /\
            brightness_to_value (1, 100) b = Ok 20.
Proof. apply (brightness_device_roundtrip 20). lia. Defined.

(** ** Services against a server that echoes the command *)

Lemma echo_to_cap_command (t i : string) (v : json) :
  is_none v = false ->
  echo_to_cap [("type", JStr t); ("instance", JStr i); ("value", v)] =
    [("type", JStr t); ("instance", JStr i); ("state", JObj [("value", v)])].
Proof. intros Hv. unfold echo_to_cap. simpl. rewrite Hv. reflexivity. Qed.

(** Against the echoing server, a control command on a cached device
    overwrites the first capability of its [(type, instance)] with the
    snapshot of the sent value. *)
Lemma echo_server_control (uuid4 : nat -> string) (today : Z) (dev : device_cfg)
    (t i : string) (v : json) (w : world) (p : dict) (caps : list json) (k : nat) (c : json) :
  ed_state (w_entry w) !! dc_device dev = Some (JObj p) ->
  dget "capabilities" p = Some (JList caps) ->
  Forall (fun c => cap_wfb c = true) caps ->
  list_find (fun c => cap_matches t i c = true) caps = Some (k, c) ->
  is_none v = false ->
  fst (async_GoveeAPI_ControlDevice echo_server uuid4 today dev (command t i v) w) = true /\
  ed_state (w_entry (snd (async_GoveeAPI_ControlDevice echo_server uuid4 today dev (command t i v) w))) =
    <[dc_device dev := JObj (dset "capabilities" (JList (<[k := snapshot t i v]> caps)) p)]>
      (ed_state (w_entry w)).
Proof.
  intros Hst Hcaps Hwf Hf Hv.
  unfold async_GoveeAPI_ControlDevice, fresh_uuid. cbn -[async_GoveeAPI_POSTRequest].
  rewrite (POST_with_request_id _ _ _ _ _ (JStr (uuid4 (w_uuid w)))) by reflexivity.
  simpl. rewrite echo_to_cap_command by done.
  unfold device_payload. simpl. rewrite Hst. simpl. rewrite Hcaps. simpl.
  rewrite (find_capability_first caps _ t i 0) by done.
  rewrite Hf. simpl. split; reflexivity.
Qed.

Lemma echo_server_control_get (uuid4 : nat -> string) (today : Z) (dev : device_cfg)
    (t i : string) (v : json) (w : world) (p : dict) (caps : list json) :
  ed_state (w_entry w) !! dc_device dev = Some (JObj p) ->
  dget "capabilities" p = Some (JList caps) ->
  Forall (fun c => cap_wfb c = true) caps ->
  list_find (fun c => cap_matches t i c = true) caps <> None ->
  is_none v = false ->
  fst (async_GoveeAPI_ControlDevice echo_server uuid4 today dev (command t i v) w) = true /\
  GoveeAPI_GetCachedStateValue
    (w_entry (snd (async_GoveeAPI_ControlDevice echo_server uuid4 today dev (command t i v) w)))
    (dc_device dev) t i = v.
Proof.
  intros Hst Hcaps Hwf Hf Hv.
  destruct (list_find _ caps) as [[k c]|] eqn:Ef; [|done].
  destruct (echo_server_control uuid4 today dev t i v w p caps k c) as [Hok Hstate]; try done.
  split; [done|].
  unfold GoveeAPI_GetCachedStateValue, device_payload. rewrite Hstate.
  rewrite lookup_insert_eq. simpl. rewrite dget_dset_eq. simpl.
  unfold snapshot.
  rewrite (scan_cached_after_patch caps k c
             [("type", JStr t); ("instance", JStr i); ("state", JObj [("value", v)])] t i v);
    [reflexivity | done | exact Ef | done | done | done].
Qed.

Lemma light_turn_on_single (http : request -> http_reply) (uuid4 : nat -> string) (today : Z)
    (L : light) (kw : turn_on_kwargs) (w : world) (cmd : json) :
  turn_on_commands L kw (w_entry w) = Ok [cmd] ->
  light_turn_on http uuid4 today L kw w =
    Ok (snd (async_GoveeAPI_ControlDevice http uuid4 today (l_dev L) cmd w)).
Proof. intros H. unfold light_turn_on. rewrite H. reflexivity. Qed.



Lemma default_scenes_selectable (name : string) (sid pid : Z) :
  In (name, sid, pid) default_scenes -> scene_selectable default_scene_modes name = true.
Proof.
  intros Hin.
  assert (Hall : forallb (fun e => scene_selectable default_scene_modes e.1.1) default_scenes = true)
    by (vm_compute; reflexivity).
  rewrite forallb_forall in Hall. exact (Hall _ Hin).
Qed.

(** Selecting any default scene as the effect of a switched-on light,
    against a server that echoes the command, when the light's cached
    capability list already has a [lightScene] entry (every entry having
    a [type] and an [instance]), makes the [effect] property report that
    scene afterwards. *)
Theorem light_scene_roundtrip (uuid4 : nat -> string) (today : Z) (L : light)
    (name : string) (sid pid : Z) (w : world) (p : dict) (caps : list json) :
  In (name, sid, pid) default_scenes ->
  l_scene_modes L = default_scene_modes ->
  is_on (l_power L) (w_entry w) (dc_device (l_dev L)) = Ok true ->
  ed_state (w_entry w) !! dc_device (l_dev L) = Some (JObj p) ->
  dget "capabilities" p = Some (JList caps) ->
  Forall (fun c => cap_wfb c = true) caps ->
  list_find (fun c => cap_matches "devices.capabilities.dynamic_scene" "lightScene" c = true) caps <> None ->
  exists w',
    light_turn_on echo_server uuid4 today L
      {| kw_brightness := None; kw_color_temp_kelvin := None; kw_rgb_color := None;
         kw_effect := Some name |} w = Ok w' /\
    light_effect L (w_entry w') = Ok (Some name).
Proof.
  intros Hin HL Hon Hst Hcaps Hwf Hf.
  pose proof (default_scenes_selectable name sid pid Hin) as Hsel.
  rewrite <- HL in Hsel. clear HL Hin.
  remember (l_scene_modes L) as sm eqn:Hsm.
  unfold scene_selectable in Hsel.
  destruct (String.prefix "Music:" name) eqn:Hpre; [discriminate|].
  destruct (sget name sm) as [sv|] eqn:Hsv; [|discriminate].
  simpl in Hsel. apply andb_prop in Hsel as [Htr Hsel].
  assert (Hnn : is_none sv = false) by (destruct sv; done).
  destruct (echo_server_control_get uuid4 today (l_dev L) "devices.capabilities.dynamic_scene"
              "lightScene" sv w p caps) as [_ Hget]; try done.
  eexists. rewrite (light_turn_on_single _ _ _ L _ w
    (command "devices.capabilities.dynamic_scene" "lightScene" sv)).
  - split; [reflexivity|].
    unfold light_effect. rewrite Hget. rewrite Htr. rewrite <- Hsm.
    apply andb_prop in Hsel as [Hid Hl]. rewrite Hid.
    destruct (scene_lookup sm _) as [[n|]|]; try discriminate.
    apply String.eqb_eq in Hl. subst n. reflexivity.
  - unfold turn_on_commands. simpl. rewrite Hpre. simpl. rewrite <- Hsm, Hsv. simpl.
    rewrite Hon. reflexivity.
Qed.

Lemma light_scene_roundtrip_witness :
  exists w',
    light_turn_on echo_server test_uuid 0 scene_lamp_light
      {| kw_brightness := None; kw_color_temp_kelvin := None; kw_rgb_color := None;
         kw_effect := Some "Aurora" |} (start_world lamp_full_cache) = Ok w' /\
    light_effect scene_lamp_light (w_entry w') = Ok (Some "Aurora").
Proof.
  apply (light_scene_roundtrip test_uuid 0 scene_lamp_light "Aurora" 201 182
           (start_world lamp_full_cache) full_payload full_caps);
    try reflexivity; try (vm_compute; congruence); try (vm_compute; tauto); repeat constructor.
Defined.

Lemma rgb_decode_encode (r g b : Z) :
  0 <= r <= 255 -> 0 <= g <= 255 -> 0 <= b <= 255 ->
  rgb_decode (rgb_encode (r, g, b)) = (r, g, b).
Proof.
  intros Hr Hg Hb. unfold rgb_encode, rgb_decode.
  change 255 with (Z.ones 8).
  rewrite !Z.land_ones by lia.
  rewrite !Z.shiftr_div_pow2, !Z.shiftl_mul_pow2 by lia.
  change (2 ^ 8) with 256. change (2 ^ 16) with 65536.
  f_equal; [f_equal|]; Z.div_mod_to_equations; nia.
Qed.

(** Setting an RGB color [(r, g, b)] on a switched-on light, against a
    server that echoes the command, when the light's cached capability
    list already has a [colorRgb] entry (every entry having a [type] and
    an [instance]), makes [rgb_color] report exactly [(r, g, b)]
    afterwards. *)
Theorem light_rgb_roundtrip (uuid4 : nat -> string) (today : Z) (L : light)
    (r g b : Z) (w : world) (p : dict) (caps : list json) :
  0 <= r <= 255 -> 0 <= g <= 255 -> 0 <= b <= 255 ->
  is_on (l_power L) (w_entry w) (dc_device (l_dev L)) = Ok true ->
  ed_state (w_entry w) !! dc_device (l_dev L) = Some (JObj p) ->
  dget "capabilities" p = Some (JList caps) ->
  Forall (fun c => cap_wfb c = true) caps ->
  list_find (fun c => cap_matches "devices.capabilities.color_setting" "colorRgb" c = true) caps <> None ->
  exists w',
    light_turn_on echo_server uuid4 today L
      {| kw_brightness := None; kw_color_temp_kelvin := None; kw_rgb_color := Some (r, g, b);
         kw_effect := None |} w = Ok w' /\
    rgb_color (w_entry w') (dc_device (l_dev L)) = Ok (Some (r, g, b)).
Proof.
  intros Hr Hg Hb Hon Hst Hcaps Hwf Hf.
  destruct (echo_server_control_get uuid4 today (l_dev L) "devices.capabilities.color_setting"
              "colorRgb" (JInt (rgb_encode (r, g, b))) w p caps) as [_ Hget]; try done.
  eexists. rewrite (light_turn_on_single _ _ _ L _ w
    (command "devices.capabilities.color_setting" "colorRgb" (JInt (rgb_encode (r, g, b))))).
  - split; [reflexivity|].
    unfold rgb_color. rewrite Hget. unfold rgb_color_of. rewrite rgb_decode_encode by done.
    reflexivity.
  - unfold turn_on_commands. simpl. rewrite Hon. reflexivity.
Qed.

Lemma light_rgb_roundtrip_witness :
  exists w',
    light_turn_on echo_server test_uuid 0 lamp_light
      {| kw_brightness := None; kw_color_temp_kelvin := None; kw_rgb_color := Some (255, 128, 0);
         kw_effect := None |} (start_world lamp_full_cache) = Ok w' /\
    rgb_color (w_entry w') "AA:BB:CC" = Ok (Some (255, 128, 0)).
Proof.
  apply (light_rgb_roundtrip test_uuid 0 lamp_light 255 128 0
           (start_world lamp_full_cache) full_payload full_caps);
    try lia; try reflexivity; try (vm_compute; congruence); repeat constructor.
Defined.

(** Setting a brightness [bri] in [0..255] on a switched-on light with the
    default range [1..100], against a server that echoes the command,
    when the light's cached capability list already has a [brightness]
    range entry (every entry having a [type] and an [instance]), makes the
    [brightness] property report [bri] within 1 afterwards. *)
Theorem light_brightness_roundtrip (uuid4 : nat -> string) (today : Z) (L : light)
    (bri : Z) (w : world) (p : dict) (caps : list json) :
  l_brightness_scale L = (1, 100) -> 0 <= bri <= 255 ->
  is_on (l_power L) (w_entry w) (dc_device (l_dev L)) = Ok true ->
  ed_state (w_entry w) !! dc_device (l_dev L) = Some (JObj p) ->
  dget "capabilities" p = Some (JList caps) ->
  Forall (fun c => cap_wfb c = true) caps ->
  list_find (fun c => cap_matches "devices.capabilities.range" "brightness" c = true) caps <> None ->
  exists w' bri',
    light_turn_on echo_server uuid4 today L
      {| kw_brightness := Some bri; kw_color_temp_kelvin := None; kw_rgb_color := None;
         kw_effect := None |} w = Ok w' /\
    light_brightness L (w_entry w') = Ok (Some bri') /\ Z.abs (bri' - bri) <= 1.
Proof.
  intros Hsc Hb Hon Hst Hcaps Hwf Hf.
  destruct (brightness_back_default_scale bri Hb) as (v & Hv & Hvr & bri' & Hb' & Hd).
  destruct (echo_server_control_get uuid4 today (l_dev L) "devices.capabilities.range"
              "brightness" (JInt v) w p caps) as [_ Hget]; try done.
  eexists. exists bri'. rewrite (light_turn_on_single _ _ _ L _ w
    (command "devices.capabilities.range" "brightness" (JInt v))).
  - split; [reflexivity|]. split; [|done].
    unfold light_brightness. rewrite Hget, Hsc. exact Hb'.
  - unfold turn_on_commands. simpl. rewrite Hsc, Hv. simpl. rewrite Hon. reflexivity.
Qed.

Lemma light_brightness_roundtrip_witness :
  exists w' bri',
    light_turn_on echo_server test_uuid 0 lamp_light
      {| kw_brightness := Some 128; kw_color_temp_kelvin := None; kw_rgb_color := None;
         kw_effect := None |} (start_world lamp_full_cache) = Ok w' /\
    light_brightness lamp_light (w_entry w') = Ok (Some bri') /\ Z.abs (bri' - 128) <= 1.
Proof.
  apply (light_brightness_roundtrip test_uuid 0 lamp_light 128
           (start_world lamp_full_cache) full_payload full_caps);
    try lia; try reflexivity; try (vm_compute; congruence); repeat constructor.
Defined.

(** Setting a known humidifier mode ([async_set_mode]; the fan's
    [async_set_preset_mode] is the same code) against a server that
    echoes the command, when the device's cached capability list already
    has a [workMode] entry (every entry having a [type] and an
    [instance]), makes [mode] report that name afterwards, provided no
    other mode name carries an equal [(workMode, modeValue)] pair. *)
Theorem set_mode_echo (uuid4 : nat -> string) (today : Z) (m : modes) (dev : device_cfg)
    (s : string) (wv mv : json) (w : world) (p : dict) (caps : list json) :
  hfind (JStr s) m = Some (wv, mv) ->
  mode_pair_unique m s wv mv = true ->
  ed_state (w_entry w) !! dc_device dev = Some (JObj p) ->
  dget "capabilities" p = Some (JList caps) ->
  Forall (fun c => cap_wfb c = true) caps ->
  list_find (fun c => cap_matches "devices.capabilities.work_mode" "workMode" c = true) caps <> None ->
  humidifier_mode m (w_entry (async_set_mode echo_server uuid4 today m dev s w)) (dc_device dev)
    = Ok (Some (JStr s)).
Proof.
  intros Hfind Huniq Hst Hcaps Hwf Hf.
  unfold async_set_mode, set_mode_value. rewrite Hfind. simpl.
  destruct (echo_server_control_get uuid4 today dev "devices.capabilities.work_mode" "workMode"
              (JObj [("workMode", wv); ("modeValue", mv)]) w p caps) as [_ Hget]; try done.
  unfold humidifier_mode. rewrite Hget. unfold mode_of_value. simpl.
  by apply mode_lookup_pair.
Qed.

Lemma set_mode_echo_witness :
  humidifier_mode (init_modes [humidifier_work_mode] [])
    (w_entry (async_set_mode echo_server test_uuid 0 (init_modes [humidifier_work_mode] [])
                lamp "Medium" (start_world lamp_full_cache))) "AA:BB:CC"
  = Ok (Some (JStr "Medium")).
Proof.
  apply (set_mode_echo test_uuid 0 (init_modes [humidifier_work_mode] []) lamp "Medium"
           (JInt 1) (JInt 2) (start_world lamp_full_cache) full_payload full_caps);
    try reflexivity; try (vm_compute; congruence); repeat constructor.
Defined.



(** ** Availability *)

Lemma default_last_cons (v0 x : json) (l : list json) :
  default v0 (last (x :: l)) = default x (last l).
Proof.
  induction l as [|y l IH]; [done|].
  simpl. destruct l; done.
Qed.

Lemma online_scan_last (caps : list json) (v0 : json) :
  Forall (fun c => available_wf c = true) caps ->
  online_scan caps v0 = Ok (default v0 (last (omap online_state_value caps))).
Proof.
  revert v0. induction caps as [|c rest IH]; intros v0 Hwf; [done|].
  inversion Hwf as [|? ? Hc Hrest]; subst.
  destruct c as [| | | | | d]; try discriminate. simpl in Hc |- *.
  destruct (dget "type" d) as [ty|] eqn:Ht; [|discriminate]. simpl.
  destruct (py_eqb ty (JStr "devices.capabilities.online")); simpl.
  - destruct (dget "state" d) as [[| | | | | st]|]; try discriminate; simpl;
      rewrite ?IH by done; try reflexivity.
    rewrite default_last_cons. reflexivity.
  - by apply IH.
Qed.

(** [available] of a cached device is the [state.value] of the LAST
    online capability that has a state ([False] when that state has no
    value, and [False] when no online capability has a state). *)
Theorem available_last_online (ed : entry_data) (dev : device_cfg) (p : dict) (caps : list json) :
  ed_state ed !! dc_device dev = Some (JObj p) ->
  dget "capabilities" p = Some (JList caps) ->
  Forall (fun c => available_wf c = true) caps ->
  available ed dev = default (JBool false) (last (omap online_state_value caps)).
Proof.
  intros Hst Hcaps Hwf. unfold available. rewrite Hst. simpl. rewrite Hcaps. simpl.
  rewrite online_scan_last by done. reflexivity.
Qed.

Lemma available_last_online_witness :
  available online_cache lamp = JBool true.
Proof.
  rewrite (available_last_online online_cache lamp
             [("device", JStr "AA:BB:CC"); ("capabilities", JList online_caps)] online_caps);
    [vm_compute; reflexivity | reflexivity | reflexivity | repeat constructor].
Defined.

(** ** Webhook events *)

Lemma dget_fold_update (k : string) (e : dict) (l : dict) (d : dict) :
  dget k (fold_left (fun acc kv => dset kv.1 (default JNull (dget kv.1 e)) acc) l d) =
    if bool_decide (k ∈ map fst l) then Some (default JNull (dget k e)) else dget k d.
Proof.
  revert d. induction l as [|[k' v'] l IH]; intros d; simpl; [done|].
  rewrite IH. destruct (String.eqb_spec k k') as [->|Hne].
  - rewrite (bool_decide_true (k' ∈ k' :: map fst l)) by set_solver.
    case_bool_decide; [done|]. apply dget_dset_eq.
  - rewrite (bool_decide_ext (k ∈ k' :: map fst l) (k ∈ map fst l)) by set_solver.
    case_bool_decide; [done|]. by apply dget_dset_ne.
Qed.

Lemma dget_in_keys (k : string) (e : dict) :
  bool_decide (k ∈ map fst e) = bool_decide (is_Some (dget k e)).
Proof.
  apply bool_decide_ext. induction e as [|[k' v'] e IH]; simpl.
  - split; [set_solver | by intros []].
  - destruct (String.eqb_spec k k') as [->|Hne].
    + split; [done | set_solver].
    + rewrite <- IH. set_solver.
Qed.

(** [d.update(e)] then [d[k]]: the event's field wins. *)
Lemma dget_dict_update (k : string) (d e : dict) :
  dget k (dict_update d e) = match dget k e with Some v => Some v | None => dget k d end.
Proof.
  unfold dict_update. rewrite dget_fold_update, dget_in_keys.
  case_bool_decide as H; destruct (dget k e) as [v|]; try done.
  by destruct H.
Qed.

Lemma webhook_update_dicts (d : string) (ev : dict) (eds : list entry_data) :
  Forall (fun ed => forall j, ed_state ed !! d = Some j -> exists pd, j = JObj pd) eds ->
  snd (webhook_update (JStr d) ev eds) = Ok tt /\
  Forall2 (webhook_entry_after d ev) eds (fst (webhook_update (JStr d) ev eds)).
Proof.
  induction eds as [|ed rest IH]; intros Hall; simpl; [done|].
  inversion Hall as [|? ? Hed Hrest]; subst.
  destruct (IH Hrest) as [IHr IHf].
  destruct (ed_state ed !! d) as [j|] eqn:Ej.
  - destruct (Hed j eq_refl) as [pd ->]. simpl.
    destruct (webhook_update (JStr d) ev rest) as [rest' r] eqn:Ew. simpl in *.
    split; [done|]. constructor; [|done].
    split; [done|]. split.
    + intros d' Hne. simpl. by rewrite lookup_insert_ne by congruence.
    + intros t i. rewrite Ej.
      unfold GoveeAPI_GetCachedStateValue, device_payload. simpl.
      rewrite lookup_insert_eq, Ej. simpl. rewrite dget_dict_update.
      destruct (dget "capabilities" ev); reflexivity.
  - destruct (webhook_update (JStr d) ev rest) as [rest' r] eqn:Ew. simpl in *.
    split; [done|]. constructor; [|done].
    split; [done|]. split; [done|]. intros t i. rewrite Ej. reflexivity.
Qed.

(** [handle_webhook] on a body with an [event] naming a device: the
    event is fired on the bus, and every entry that caches that device has
    the device's payload updated with the event's fields (so the cached
    state values come from the event's capabilities when it has some),
    while the other devices, the API counter and the entries without the
    device stay as they were. *)
Theorem webhook_event_updates_cache (b ev : dict) (d : string) (eds : list entry_data) :
  dget "event" b = Some (JObj ev) ->
  dget "device" ev = Some (JStr d) -> d <> "" ->
  Forall (fun ed => forall j, ed_state ed !! d = Some j -> exists pd, j = JObj pd) eds ->
  fst (handle_webhook (JObj b) eds) = Some (JObj ev) /\
  Forall2 (webhook_entry_after d ev) eds (snd (handle_webhook (JObj b) eds)).
Proof.
  intros Hev Hdev Hne Hall.
  assert (Hb : b <> []) by (intros ->; discriminate).
  unfold handle_webhook. simpl.
  rewrite bool_decide_false by done. simpl. rewrite Hev, Hdev. simpl.
  destruct (String.eqb_spec d "") as [->|_]; [done|]. simpl.
  split; [done|]. apply webhook_update_dicts, Hall.
Qed.

Lemma webhook_event_updates_cache_witness :
  fst (handle_webhook (JObj [("event", JObj lamp_off_event)]) [lamp_on_cache])
    = Some (JObj lamp_off_event) /\
  Forall2 (webhook_entry_after "AA:BB:CC" lamp_off_event) [lamp_on_cache]
    (snd (handle_webhook (JObj [("event", JObj lamp_off_event)]) [lamp_on_cache])).
Proof.
  apply (webhook_event_updates_cache [("event", JObj lamp_off_event)] lamp_off_event
           "AA:BB:CC" [lamp_on_cache]); try reflexivity; [done|].
  repeat constructor. intros j Hj. vm_compute in Hj. injection Hj as <-. by eexists.
Defined.

(** ** Requests to one device leave the other devices' cache alone *)

(** [async_GoveeAPI_ControlDevice] and [async_GoveeAPI_GetDeviceState]
    only ever write the cache entry of the device they address, whatever
    the server replies. *)
Theorem device_calls_frame (http : request -> http_reply) (uuid4 : nat -> string) (today : Z)
    (dev : device_cfg) (cap : json) (rsc : bool) (w : world) (d : string) :
  d <> dc_device dev ->
  ed_state (w_entry (snd (async_GoveeAPI_ControlDevice http uuid4 today dev cap w))) !! d
    = ed_state (w_entry w) !! d /\
  ed_state (w_entry (snd (async_GoveeAPI_GetDeviceState http uuid4 today dev rsc w))) !! d
    = ed_state (w_entry w) !! d.
Proof.
  intros Hne. split.
  - unfold async_GoveeAPI_ControlDevice, fresh_uuid. cbn -[async_GoveeAPI_POSTRequest].
    rewrite (POST_with_request_id _ _ _ _ _ (JStr (uuid4 (w_uuid w)))) by reflexivity.
    unfold catch, rbind.
    repeat case_match; simplify_eq/=; try done; by rewrite lookup_insert_ne by congruence.
  - unfold async_GoveeAPI_GetDeviceState, fresh_uuid. cbn -[async_GoveeAPI_POSTRequest].
    rewrite (POST_with_request_id _ _ _ _ _ (JStr (uuid4 (w_uuid w)))) by reflexivity.
    unfold catch, rbind.
    repeat case_match; simplify_eq/=; try done; by rewrite lookup_insert_ne by congruence.
Qed.

Lemma device_calls_frame_witness :
  ed_state (w_entry (snd (async_GoveeAPI_ControlDevice (reply_always lamp_state_reply) test_uuid 0
              lamp (command "devices.capabilities.on_off" "powerSwitch" (JInt 0))
              (start_world two_device_cache)))) !! "FF:00"
    = ed_state two_device_cache !! "FF:00" /\
  ed_state (w_entry (snd (async_GoveeAPI_GetDeviceState (reply_always lamp_state_reply) test_uuid 0
              lamp false (start_world two_device_cache)))) !! "FF:00"
    = ed_state two_device_cache !! "FF:00".
Proof. apply device_calls_frame. vm_compute. congruence. Defined.

(** A [device/state] reply without [payload] still counts as success:
    the device's cache entry becomes the empty dict, so every cached
    state value of the device reads back as [None]. *)
Theorem state_reply_without_payload (http : request -> http_reply) (uuid4 : nat -> string)
    (today : Z) (dev : device_cfg) (rsc : bool) (w : world) (r : dict) :
  (forall body, http (Req_POST "device/state" body) = HResp 200 (Some (JObj r))) ->
  dget "payload" r = None ->
  fst (async_GoveeAPI_GetDeviceState http uuid4 today dev rsc w) = DSBool true /\
  ed_state (w_entry (snd (async_GoveeAPI_GetDeviceState http uuid4 today dev rsc w))) !! dc_device dev
    = Some (JObj []) /\
  forall t i, GoveeAPI_GetCachedStateValue
                (w_entry (snd (async_GoveeAPI_GetDeviceState http uuid4 today dev rsc w)))
                (dc_device dev) t i = JNull.
Proof.
  intros Hhttp Hp.
  unfold async_GoveeAPI_GetDeviceState, fresh_uuid. cbn -[async_GoveeAPI_POSTRequest].
  rewrite (POST_with_request_id _ _ _ _ _ (JStr (uuid4 (w_uuid w)))) by reflexivity.
  rewrite Hhttp. simpl. rewrite Hp. simpl.
  split; [done|]. split; [by rewrite lookup_insert_eq|].
  intros t i. unfold GoveeAPI_GetCachedStateValue, device_payload. simpl.
  rewrite lookup_insert_eq. reflexivity.
Qed.

Lemma state_reply_without_payload_witness :
  fst (async_GoveeAPI_GetDeviceState (reply_always [("code", JInt 200)]) test_uuid 0 lamp false
         (start_world lamp_on_cache)) = DSBool true /\
  ed_state (w_entry (snd (async_GoveeAPI_GetDeviceState (reply_always [("code", JInt 200)])
              test_uuid 0 lamp false (start_world lamp_on_cache)))) !! dc_device lamp
    = Some (JObj []) /\
  forall t i, GoveeAPI_GetCachedStateValue
                (w_entry (snd (async_GoveeAPI_GetDeviceState (reply_always [("code", JInt 200)])
                   test_uuid 0 lamp false (start_world lamp_on_cache))))
                (dc_device lamp) t i = JNull.
Proof. apply (state_reply_without_payload _ _ _ _ _ _ [("code", JInt 200)]); reflexivity. Defined.

(** ** Turning on a light that has no [on] option *)

Lemma sget_sset_eq {A} (k : string) (v : A) (d : list (string * A)) :
  sget k (sset k v d) = Some v.
Proof.
  induction d as [|[k' v'] r IH]; simpl; [by rewrite String.eqb_refl|].
  destruct (String.eqb_spec k k') as [->|Hne]; simpl.
  - by rewrite String.eqb_refl.
  - apply String.eqb_neq in Hne. by rewrite Hne.
Qed.

Lemma sget_sset_ne {A} (k k' : string) (v : A) (d : list (string * A)) :
  k <> k' -> sget k (sset k' v d) = sget k d.
Proof.
  intros Hne. induction d as [|[k'' v'] r IH]; simpl.
  - apply String.eqb_neq in Hne. by rewrite Hne.
  - destruct (String.eqb_spec k' k'') as [->|Hne']; simpl.
    + apply String.eqb_neq in Hne. by rewrite Hne.
    + by rewrite IH.
Qed.

Lemma hset_aux_values {A} (k : json) (v : A) (m : list (json * A)) (x : A) :
  In x (map snd (hset_aux k v m)) -> x = v \/ In x (map snd m).
Proof.
  induction m as [|[k' v'] r IH]; simpl; [intuition|].
  destruct (py_eqb k' k); simpl; intuition.
Qed.

Lemma hfind_value {A} (k : json) (m : list (json * A)) (x : A) :
  hfind k m = Some x -> In x (map snd m).
Proof.
  induction m as [|[k' v'] r IH]; simpl; [done|].
  destruct (py_eqb k' k); [intros [= ->]; by left | intros H; right; auto].
Qed.

Lemma power_option_on_recorded (o : json) (st st' : power_maps) :
  on_recorded st -> power_option o st = Ok st' -> on_recorded st'.
Proof.
  unfold power_option, on_recorded. intros Hinv H.
  destruct (py_getitem o "name") as [name|]; simpl in H; [|discriminate].
  destruct (py_eqb name (JStr "on")); [|destruct (py_eqb name (JStr "off"))]; simpl in H.
  - destruct (py_getitem o "value") as [v|]; simpl in H; [|discriminate].
    unfold hset in H. destruct (hashable v); simpl in H; [|discriminate].
    injection H as <-. simpl. intros _. rewrite sget_sset_eq. done.
  - destruct (py_getitem o "value") as [v|]; simpl in H; [|discriminate].
    unfold hset in H. destruct (hashable v); simpl in H; [|discriminate].
    injection H as <-. simpl. intros Hin.
    apply hset_aux_values in Hin as [Heq|Hin]; [discriminate|].
    destruct (Hinv Hin) as [x Hx].
    rewrite sget_sset_ne by done. by exists x.
  - injection H as <-. done.
Qed.

Lemma init_power_on_recorded (caps : list json) (st : power_maps) :
  on_recorded st -> on_recorded (init_power caps st).
Proof.
  revert st. induction caps as [|cap rest IH]; intros st Hinv; simpl; [done|].
  apply IH. destruct (py_getitem cap "type") as [ty|]; [|done].
  destruct (py_eqb ty _); [|done].
  unfold handle_power_capability.
  destruct (let* params := _ in _) as [opts|]; [|done]. simpl.
  revert st Hinv. induction opts as [|o os IHo]; intros st Hinv; simpl; [done|].
  destruct (power_option o st) as [st'|] eqn:E; [|done].
  apply IHo. by apply (power_option_on_recorded o st).
Qed.

Lemma rbind_raise {A B} (x : res A) (f : A -> res B) :
  (forall a, x = Ok a -> exists e, f a = Raise e) -> exists e, rbind x f = Raise e.
Proof. destruct x as [a|e]; simpl; [intros H; by apply H | by exists e]. Qed.

(** A light whose power capability offers no [on] option can never be
    turned on: as the light is never seen on, [async_turn_on] always
    looks up the value for [STATE_ON], and raises. *)
Theorem light_without_on_option_raises (http : request -> http_reply) (uuid4 : nat -> string)
    (today : Z) (L : light) (kw : turn_on_kwargs) (w : world) (caps : list json) :
  l_power L = init_power caps empty_power ->
  sget STATE_ON (state_mapping_set (l_power L)) = None ->
  exists e, light_turn_on http uuid4 today L kw w = Raise e.
Proof.
  intros HL Hon.
  assert (Hinv : on_recorded (l_power L)).
  { rewrite HL. apply init_power_on_recorded. intros []. }
  assert (Hoff : forall o, is_on (l_power L) (w_entry w) (dc_device (l_dev L)) = Ok o -> o = false).
  { unfold is_on, is_on_value, hget. intros o.
    destruct (hashable _); simpl; [|discriminate].
    intros [= <-]. apply bool_decide_eq_false. intros Hf.
    apply hfind_value in Hf. unfold on_recorded in Hinv. rewrite Hon in Hinv. by destruct (Hinv Hf). }
  assert (Hcmds : exists e, turn_on_commands L kw (w_entry w) = Raise e).
  { unfold turn_on_commands. apply rbind_raise. intros cb _. cbv zeta.
    apply rbind_raise. intros o Ho. rewrite (Hoff o Ho). simpl. rewrite Hon. simpl.
    by exists KeyError. }
  destruct Hcmds as [e He]. exists e. unfold light_turn_on. rewrite He. reflexivity.
Qed.

Lemma light_without_on_option_raises_witness :
  exists e, light_turn_on (reply_always lamp_state_reply) test_uuid 0
    {| l_dev := lamp; l_brightness_scale := (1, 100); l_power := init_power [off_only_cap] empty_power;
       l_music_modes := []; l_scene_modes := [] |}
    kw_brightness_128 (start_world lamp_on_cache) = Raise e.
Proof. apply (light_without_on_option_raises _ _ _ _ _ _ [off_only_cap]); reflexivity. Defined.

(** ** Colour modes of a light *)

Lemma set_add_mono (x y : ColorMode) (s : list ColorMode) : y ∈ s -> y ∈ set_add x s.
Proof. unfold set_add. case_bool_decide; set_solver. Qed.

Lemma set_add_other (x y : ColorMode) (s : list ColorMode) : y <> x -> y ∉ s -> y ∉ set_add x s.
Proof. unfold set_add. case_bool_decide; set_solver. Qed.

Lemma light_init_keeps_onoff (caps : list json) (a : light_attrs) :
  Forall (fun c => is_brightness_range c = false) caps ->
  CM_ONOFF ∈ la_supported_color_modes a ->
  CM_ONOFF ∈ la_supported_color_modes (light_init_attrs caps a).
Proof.
  revert a. induction caps as [|c rest IH]; intros a Hall Hin; simpl; [done|].
  inversion Hall as [|? ? Hc Hrest]; subst. apply IH; [done|].
  unfold is_brightness_range in Hc.
  destruct (py_getitem c "type") as [ty|]; [|done].
  destruct (py_eqb ty (JStr "devices.capabilities.on_off")); [done|].
  destruct (py_eqb ty (JStr "devices.capabilities.range")) eqn:Er.
  - unfold light_handle_range.
    destruct (py_getitem c "instance") as [inst|]; [|done]. simpl in Hc.
    rewrite Hc. done.
  - destruct (py_eqb ty (JStr "devices.capabilities.color_setting")); [|done].
    unfold light_handle_color.
    destruct (py_getitem c "instance") as [inst|]; [|done].
    destruct (py_eqb inst (JStr "colorRgb")); simpl; [by apply set_add_mono|].
    destruct (py_eqb inst (JStr "colorTemperatureK")); [|done].
    destruct (range_bound c "min"); simpl; [destruct (range_bound c "max")|]; simpl;
      by apply set_add_mono.
Qed.

Lemma light_init_no_rgb (caps : list json) (a : light_attrs) :
  Forall (fun c => is_color_rgb c = false) caps ->
  CM_RGB ∉ la_supported_color_modes a ->
  CM_RGB ∉ la_supported_color_modes (light_init_attrs caps a).
Proof.
  revert a. induction caps as [|c rest IH]; intros a Hall Hin; simpl; [done|].
  inversion Hall as [|? ? Hc Hrest]; subst. apply IH; [done|].
  unfold is_color_rgb in Hc.
  destruct (py_getitem c "type") as [ty|]; [|done].
  destruct (py_eqb ty (JStr "devices.capabilities.on_off")); [done|].
  destruct (py_eqb ty (JStr "devices.capabilities.range")) eqn:Er.
  - unfold light_handle_range.
    destruct (py_getitem c "instance") as [inst|]; [|done].
    destruct (py_eqb inst (JStr "brightness")); [|done].
    destruct (let* mn := _ in _); [|done]. simpl.
    case_bool_decide; [set_solver|]. by apply set_add_other.
  - destruct (py_eqb ty (JStr "devices.capabilities.color_setting")) eqn:Ec; [|done].
    unfold light_handle_color.
    destruct (py_getitem c "instance") as [inst|]; [|done]. simpl in Hc.
    rewrite Hc.
    destruct (py_eqb inst (JStr "colorTemperatureK")); [|done].
    destruct (range_bound c "min"); simpl; [destruct (range_bound c "max")|]; simpl;
      by apply set_add_other.
Qed.

(** [_init_platform_specific] walks the capabilities in order: the first
    brightness range capability finds [ONOFF] still supported and replaces
    the supported colour modes by [{BRIGHTNESS}], so RGB support announced
    by a color capability BEFORE it is lost, unless a later capability
    announces it again. *)
Theorem light_rgb_dropped_by_brightness (pre post : list json) (bcap mn mx : json) :
  Forall (fun c => is_brightness_range c = false) pre ->
  is_brightness_range bcap = true ->
  range_bound bcap "min" = Ok mn -> range_bound bcap "max" = Ok mx ->
  Forall (fun c => is_color_rgb c = false) post ->
  CM_RGB ∉ la_supported_color_modes
             (light_init_attrs (pre ++ bcap :: post) initial_light_attrs).
Proof.
  intros Hpre Hb Hmn Hmx Hpost.
  assert (Hsplit : forall l a, light_init_attrs (pre ++ l) a =
                               light_init_attrs l (light_init_attrs pre a)).
  { clear. induction pre as [|c rest IH]; intros l a; simpl; [done|]. apply IH. }
  rewrite Hsplit.
  pose proof (light_init_keeps_onoff pre initial_light_attrs Hpre ltac:(set_solver)) as Hon.
  remember (light_init_attrs pre initial_light_attrs) as a.
  simpl. apply light_init_no_rgb; [done|].
  unfold is_brightness_range in Hb.
  destruct (py_getitem bcap "type") as [ty|]; [|discriminate].
  destruct (py_getitem bcap "instance") as [inst|] eqn:Ei; [|discriminate].
  apply andb_prop in Hb as [Hty Hinst].
  apply py_eqb_str in Hty, Hinst. subst. simpl.
  unfold light_handle_range. rewrite Ei. simpl. rewrite Hmn, Hmx. simpl.
  rewrite bool_decide_true by done. set_solver.
Qed.

Lemma light_rgb_dropped_by_brightness_witness :
  CM_RGB ∉ la_supported_color_modes
             (light_init_attrs ([color_rgb_cap] ++ brightness_cap :: []) initial_light_attrs).
Proof.
  apply (light_rgb_dropped_by_brightness [color_rgb_cap] [] brightness_cap (JInt 1) (JInt 100));
    try reflexivity; repeat constructor.
Defined.
